(** * llm-council: conversation storage and the overall leaderboard

    A shallow embedding of [backend/storage.py] (the JSON-file store) and of
    the score aggregation [get_overall_scores], which [api/storage.py]
    repeats verbatim.

    Python values read from and written to the store are JSON documents.
    Python exceptions are explicit results.  The data directory is a listing
    of file names with the document each file holds. *)

From Stdlib Require Import List ZArith QArith String Ascii Bool Lia.
From Stdlib Require Import Sorted Permutation SpecFloat.
Import ListNotations.

Local Open Scope string_scope.
Local Open Scope Z_scope.

(** ** Python values as they come out of [json.load] *)

#[local] Set Warnings "-register-all".

(** Numbers are the integers and strings are sequences of 8-bit characters;
    a [JObj] lists the items of a [dict] in insertion order, each key once.
    [json.dump] followed by [json.load] gives back such a value as it was,
    so a file is taken to hold the value itself. *)
Inductive json : Type :=
| JNull
| JBool (b : bool)
| JNum (n : Z)
| JStr (s : string)
| JArr (items : list json)
| JObj (members : list (string * json)).

Inductive exn : Type :=
| TypeError
| AttributeError
| KeyError (key : string)
| ValueError (msg : string)
| ZeroDivisionError.

Inductive result (A : Type) : Type :=
| Ok (a : A)
| Raise (e : exn).

Arguments Ok {A} a.
Arguments Raise {A} e.

Definition bind {A B : Type} (c : result A) (k : A -> result B) : result B :=
  match c with
  | Ok a => k a
  | Raise e => Raise e
  end.

Notation "x <- c ;; k" := (bind c (fun x => k))
  (at level 61, c at next level, right associativity).

(** A [for] loop whose body may raise: the first exception ends the loop. *)
Fixpoint foldM {A S : Type} (body : S -> A -> result S) (s : S) (l : list A)
  : result S :=
  match l with
  | [] => Ok s
  | x :: l' => s' <- body s x ;; foldM body s' l'
  end.

(** ** The Python primitives the store uses *)

(** [bool(v)], as taken by [if v] and [if not v]. *)
Definition truthy (v : json) : bool :=
  match v with
  | JNull => false
  | JBool b => b
  | JNum n => negb (n =? 0)
  | JStr s => negb (String.eqb s "")
  | JArr items => match items with [] => false | _ :: _ => true end
  | JObj members => match members with [] => false | _ :: _ => true end
  end.

Fixpoint lookup (k : string) (members : list (string * json)) : option json :=
  match members with
  | [] => None
  | (k', v) :: rest => if String.eqb k k' then Some v else lookup k rest
  end.

(** [v.get(k, default)]: only a dict has the method. *)
Definition py_get (v : json) (k : string) (default : json) : result json :=
  match v with
  | JObj members =>
      Ok (match lookup k members with Some w => w | None => default end)
  | _ => Raise AttributeError
  end.

(** [v[k]] with a string key. *)
Definition py_getitem (v : json) (k : string) : result json :=
  match v with
  | JObj members =>
      match lookup k members with Some w => Ok w | None => Raise (KeyError k) end
  | _ => Raise TypeError
  end.

Fixpoint dict_set (k : string) (v : json) (members : list (string * json))
  : list (string * json) :=
  match members with
  | [] => [(k, v)]
  | (k', w) :: rest =>
      if String.eqb k k' then (k', v) :: rest else (k', w) :: dict_set k v rest
  end.

(** [v[k] = w] with a string key. *)
Definition py_setitem (v : json) (k : string) (w : json) : result json :=
  match v with
  | JObj members => Ok (JObj (dict_set k w members))
  | _ => Raise TypeError
  end.

(** [v.append(x)]: only a list has the method. *)
Definition py_append (v : json) (x : json) : result json :=
  match v with
  | JArr items => Ok (JArr (items ++ [x])%list)
  | _ => Raise AttributeError
  end.

Definition chars (s : string) : list json :=
  map (fun c => JStr (String c EmptyString)) (list_ascii_of_string s).

(** The elements a [for] loop draws from [v]. *)
Definition py_iter (v : json) : result (list json) :=
  match v with
  | JArr items => Ok items
  | JObj members => Ok (map (fun kv => JStr (fst kv)) members)
  | JStr s => Ok (chars s)
  | _ => Raise TypeError
  end.

(** [len(v)]. *)
Definition py_len (v : json) : result Z :=
  match v with
  | JArr items => Ok (Z.of_nat (List.length items))
  | JObj members => Ok (Z.of_nat (List.length members))
  | JStr s => Ok (Z.of_nat (String.length s))
  | _ => Raise TypeError
  end.

(** [v == s] for a string literal [s]. *)
Definition is_str (v : json) (s : string) : bool :=
  match v with
  | JStr t => String.eqb t s
  | _ => false
  end.

(** [enumerate(l)]. *)
Definition enumerate {A : Type} (l : list A) : list (nat * A) :=
  combine (seq 0 (List.length l)) l.

(** [s.endswith(suffix)]. *)
Definition endswith (s suffix : string) : bool :=
  let n := String.length s in
  let m := String.length suffix in
  (m <=? n)%nat && String.eqb (substring (n - m) m s) suffix.

(** Keys of a Python dict are hashed: lists and dicts cannot be keys, and
    [True], [False] are the keys [1], [0]. *)
Inductive pykey : Type :=
| KNone
| KInt (n : Z)
| KStr (s : string).

Definition hash_key (v : json) : result pykey :=
  match v with
  | JNull => Ok KNone
  | JBool b => Ok (KInt (if b then 1 else 0))
  | JNum n => Ok (KInt n)
  | JStr s => Ok (KStr s)
  | JArr _ | JObj _ => Raise TypeError
  end.

Definition pykey_eqb (a b : pykey) : bool :=
  match a, b with
  | KNone, KNone => true
  | KInt n, KInt m => n =? m
  | KStr s, KStr t => String.eqb s t
  | _, _ => false
  end.

(** A Python [float] is an IEEE 754 double: 53 bits of precision, exponents
    up to 1024. *)
Definition float : Type := spec_float.

(** An integer as the operand of a division, with all its digits. *)
Definition int_operand (n : Z) : float :=
  match n with
  | Z0 => S754_zero false
  | Zpos p => S754_finite false p 0
  | Zneg p => S754_finite true p 0
  end.

(** The double that [a / b] gives for a divisor other than 0: the quotient
    of the two integers, rounded once, to the nearest double and to the even
    one of two nearest. *)
Definition float_div (a b : Z) : float :=
  SFdiv 53 1024 (int_operand a) (int_operand b).

(** [a / b] on integers.  A quotient beyond the doubles, for which Python
    raises OverflowError, would need a dividend of more than a thousand bits
    and comes out as an infinity here. *)
Definition true_div (a b : Z) : result float :=
  if b =? 0 then Raise ZeroDivisionError
  else Ok (float_div a b).

(** The number a float stands for, if it stands for one. *)
Definition float_value (x : float) : option Q :=
  match x with
  | S754_zero _ => Some 0%Q
  | S754_finite s m e =>
      Some (inject_Z (if s then Zneg m else Zpos m) * Qpower 2 e)%Q
  | S754_infinity _ | S754_nan => None
  end.

Definition sum (l : list Z) : Z := fold_right Z.add 0 l.

(** ** Score aggregation *)

(** One value of [model_scores].  The three keys that are added or deleted
    after the scan are optional. *)
Record scores : Type := mkScores {
  model : json;
  total_points : Z;
  rankings_received : Z;
  first_places : Z;
  second_places : Z;
  third_places : Z;
  position_history : option (list Z);
  average_position : option float;
  average_points : option float
}.

(** [model_scores]: a dict in insertion order. *)
Definition model_scores_t : Type := list (pykey * scores).

Fixpoint find_scores (k : pykey) (ms : model_scores_t) : option scores :=
  match ms with
  | [] => None
  | (k', s) :: rest => if pykey_eqb k k' then Some s else find_scores k rest
  end.

Fixpoint set_scores (k : pykey) (s : scores) (ms : model_scores_t)
  : model_scores_t :=
  match ms with
  | [] => [(k, s)]
  | (k', s') :: rest =>
      if pykey_eqb k k' then (k', s) :: rest else (k', s') :: set_scores k s rest
  end.

Definition new_scores (ranked_label : json) : scores :=
  {| model := ranked_label;
     total_points := 0;
     rankings_received := 0;
     first_places := 0;
     second_places := 0;
     third_places := 0;
     position_history := Some [];
     average_position := None;
     average_points := None |}.

Definition history (s : scores) : result (list Z) :=
  match position_history s with
  | Some h => Ok h
  | None => Raise (KeyError "position_history")
  end.

(** Body of the loop over [enumerate(parsed_ranking)]. *)
Definition award (num_models : Z) (model_scores : model_scores_t)
    (item : nat * json) : result model_scores_t :=
  let '(position, ranked_label) := item in
  let points := num_models - Z.of_nat position in
  k <- hash_key ranked_label ;;
  let s := match find_scores k model_scores with
           | Some s => s
           | None => new_scores ranked_label
           end in
  h <- history s ;;
  Ok (set_scores k
        {| model := model s;
           total_points := total_points s + points;
           rankings_received := rankings_received s + 1;
           first_places :=
             if (position =? 0)%nat then first_places s + 1 else first_places s;
           second_places :=
             if (position =? 1)%nat then second_places s + 1 else second_places s;
           third_places :=
             if (position =? 2)%nat then third_places s + 1 else third_places s;
           position_history := Some (h ++ [Z.of_nat position + 1])%list;
           average_position := average_position s;
           average_points := average_points s |}
        model_scores).

(** [model_scores], [total_conversations], [total_rankings]. *)
Definition scan_state : Type := model_scores_t * Z * Z.

(** Body of the loop over [stage2]. *)
Definition process_ranking (num_models : Z) (st : scan_state)
    (ranking_result : json) : result scan_state :=
  let '(model_scores, total_conversations, total_rankings) := st in
  _ranker_model <- py_get ranking_result "model" (JStr "unknown") ;;
  parsed_ranking <- py_get ranking_result "parsed_ranking" (JArr []) ;;
  if negb (truthy parsed_ranking) then Ok st
  else
    ranked <- py_iter parsed_ranking ;;
    model_scores' <- foldM (award num_models) model_scores (enumerate ranked) ;;
    Ok (model_scores', total_conversations, total_rankings + 1).

(** Body of the loop over the messages of one conversation. *)
Definition process_message (st : scan_state) (message : json)
  : result scan_state :=
  let '(model_scores, total_conversations, total_rankings) := st in
  role <- py_get message "role" JNull ;;
  if negb (is_str role "assistant") then Ok st
  else
    stage2 <- py_get message "stage2" (JArr []) ;;
    if negb (truthy stage2) then Ok st
    else
      num_models <- py_len stage2 ;;
      ranking_results <- py_iter stage2 ;;
      foldM (process_ranking num_models)
        (model_scores, total_conversations + 1, total_rankings)
        ranking_results.

(** The data directory: each file name with the document it holds, in the
    order [os.listdir] gives them.  [ensure_data_dir] only creates the
    directory and leaves the listing as it is. *)
Definition store : Type := list (string * json).

(** Body of the loop over the directory listing. *)
Definition process_file (st : scan_state) (file : string * json)
  : result scan_state :=
  let '(filename, data) := file in
  if negb (endswith filename ".json") then Ok st
  else
    archived <- py_get data "archived" (JBool false) ;;
    if truthy archived then Ok st
    else
      messages <- py_get data "messages" (JArr []) ;;
      msgs <- py_iter messages ;;
      foldM process_message st msgs.

Definition scan (files : store) : result scan_state :=
  foldM process_file ([], 0, 0) files.

(** Body of the loop over [model_scores.items()], for an entry that passed
    the [rankings_received > 0] test. *)
Definition summarize (s : scores) : result scores :=
  h <- history s ;;
  avg_position <- true_div (sum h) (Z.of_nat (List.length h)) ;;
  avg_points <- true_div (total_points s) (rankings_received s) ;;
  Ok {| model := model s;
        total_points := total_points s;
        rankings_received := rankings_received s;
        first_places := first_places s;
        second_places := second_places s;
        third_places := third_places s;
        position_history := None;
        average_position := Some avg_position;
        average_points := Some avg_points |}.

Fixpoint build_leaderboard (items : model_scores_t) : result (list scores) :=
  match items with
  | [] => Ok []
  | (_, s) :: rest =>
      if rankings_received s >? 0 then
        e <- summarize s ;;
        leaderboard <- build_leaderboard rest ;;
        Ok (e :: leaderboard)
      else build_leaderboard rest
  end.

(** [list.sort(key=total_points, reverse=True)]: stable, so an entry goes in
    front of the entries that followed it and have no more points. *)
Fixpoint insert_desc (e : scores) (l : list scores) : list scores :=
  match l with
  | [] => [e]
  | x :: l' =>
      if total_points x >? total_points e then x :: insert_desc e l'
      else e :: l
  end.

Definition sort_desc (l : list scores) : list scores :=
  fold_right insert_desc [] l.

Record overall : Type := mkOverall {
  leaderboard : list scores;
  total_conversations_analyzed : Z;
  total_rankings_processed : Z
}.

Definition get_overall_scores (files : store) : result overall :=
  st <- scan files ;;
  let '(model_scores, total_conversations, total_rankings) := st in
  board <- build_leaderboard model_scores ;;
  Ok {| leaderboard := sort_desc board;
        total_conversations_analyzed := total_conversations;
        total_rankings_processed := total_rankings |}.

(** ** The conversation store *)

(** A store operation takes the directory and gives back its outcome with
    the directory it leaves. *)
Definition io (A : Type) : Type := store -> result A * store.

Definition io_raise {A : Type} (e : exn) : io A := fun files => (Raise e, files).

Definition io_lift {A : Type} (c : result A) : io A := fun files => (c, files).

Definition io_bind {A B : Type} (c : io A) (k : A -> io B) : io B :=
  fun files =>
    match c files with
    | (Ok a, files') => k a files'
    | (Raise e, files') => (Raise e, files')
    end.

Notation "x <~ c ;; k" := (io_bind c (fun x => k))
  (at level 61, c at next level, right associativity).

Definition read_file (path : string) (files : store) : option json :=
  lookup path files.

Definition write_file (path : string) (doc : json) (files : store) : store :=
  dict_set path doc files.

Definition remove_file (path : string) (files : store) : store :=
  filter (fun f => negb (String.eqb path (fst f))) files.

Definition is_none (v : json) : bool :=
  match v with
  | JNull => true
  | _ => false
  end.

Section Store.

(** How an f-string renders a conversation id. *)
Variable format : json -> string.

(** The name of the conversation's file inside the data directory, to
    which [os.path.join] adds [DATA_DIR]. *)
Definition get_conversation_path (conversation_id : json) : string :=
  format conversation_id ++ ".json".

(** [None] is [JNull]. *)
Definition get_conversation (conversation_id : json) : io json :=
  fun files =>
    let path := get_conversation_path conversation_id in
    match read_file path files with
    | None => (Ok JNull, files)
    | Some doc => (Ok doc, files)
    end.

Definition save_conversation (conversation : json) : io unit :=
  fun files =>
    match py_getitem conversation "id" with
    | Raise e => (Raise e, files)
    | Ok id =>
        (Ok tt, write_file (get_conversation_path id) conversation files)
    end.

Definition not_found (conversation_id : json) : exn :=
  ValueError ("Conversation " ++ format conversation_id ++ " not found").

(** [conversation["messages"].append(message)]. *)
Definition append_message (conversation message : json) : result json :=
  messages <- py_getitem conversation "messages" ;;
  messages' <- py_append messages message ;;
  py_setitem conversation "messages" messages'.

Definition add_user_message (conversation_id content : json) : io unit :=
  conversation <~ get_conversation conversation_id ;;
  if is_none conversation then io_raise (not_found conversation_id)
  else
    conversation' <~
      io_lift (append_message conversation
                 (JObj [("role", JStr "user"); ("content", content)])) ;;
    save_conversation conversation'.

Definition add_assistant_message (conversation_id stage1 stage2 stage3 : json)
  : io unit :=
  conversation <~ get_conversation conversation_id ;;
  if is_none conversation then io_raise (not_found conversation_id)
  else
    conversation' <~
      io_lift (append_message conversation
                 (JObj [("role", JStr "assistant"); ("stage1", stage1);
                        ("stage2", stage2); ("stage3", stage3)])) ;;
    save_conversation conversation'.

Definition update_conversation_title (conversation_id title : json)
  : io unit :=
  conversation <~ get_conversation conversation_id ;;
  if is_none conversation then io_raise (not_found conversation_id)
  else
    conversation' <~ io_lift (py_setitem conversation "title" title) ;;
    save_conversation conversation'.

Definition archive_conversation (conversation_id : json) (archived : bool)
  : io unit :=
  conversation <~ get_conversation conversation_id ;;
  if is_none conversation then io_raise (not_found conversation_id)
  else
    conversation' <~
      io_lift (py_setitem conversation "archived" (JBool archived)) ;;
    save_conversation conversation'.

Definition delete_conversation (conversation_id : json) : io unit :=
  fun files =>
    let path := get_conversation_path conversation_id in
    match read_file path files with
    | Some _ => (Ok tt, remove_file path files)
    | None => (Ok tt, files)
    end.

End Store.

(** An id that is a string is rendered as it is. *)
Definition format_str (v : json) : string :=
  match v with
  | JStr s => s
  | _ => ""
  end.

(** ** What the scan looks at *)

(** The readings of a document that never raise: what is not there, or not
    of the shape, reads as the default, as nothing, as zero. *)
Definition field (v : json) (k : string) (default : json) : json :=
  match py_get v k default with
  | Ok w => w
  | Raise _ => default
  end.

Definition elements (v : json) : list json :=
  match py_iter v with
  | Ok l => l
  | Raise _ => []
  end.

Definition size (v : json) : Z :=
  match py_len v with
  | Ok n => n
  | Raise _ => 0
  end.

Definition is_archived (conversation : json) : bool :=
  truthy (field conversation "archived" (JBool false)).

Definition stage2_of (message : json) : json := field message "stage2" (JArr []).

Definition parsed_ranking_of (ranking_result : json) : json :=
  field ranking_result "parsed_ranking" (JArr []).

(** An assistant message with a non-empty stage2. *)
Definition is_analyzed (message : json) : bool :=
  is_str (field message "role" JNull) "assistant" && truthy (stage2_of message).

Definition has_ranking (ranking_result : json) : bool :=
  truthy (parsed_ranking_of ranking_result).

(** The conversations of the [.json] files that are not archived. *)
Definition live_conversations (files : store) : list json :=
  filter (fun c => negb (is_archived c))
    (map snd (filter (fun f => endswith (fst f) ".json") files)).

Definition messages_of (conversation : json) : list json :=
  elements (field conversation "messages" (JArr [])).

Definition analyzed_messages (files : store) : list json :=
  filter is_analyzed (flat_map messages_of (live_conversations files)).

(** The ranking results with a non-empty parsed_ranking, each with
    [len(stage2)] of its message. *)
Definition rankings_of (message : json) : list (Z * json) :=
  map (fun rr => (size (stage2_of message), rr))
    (filter has_ranking (elements (stage2_of message))).

Definition processed_rankings (files : store) : list (Z * json) :=
  flat_map rankings_of (analyzed_messages files).

(** One ranked label: [len(stage2)], the 0-indexed position, the label. *)
Definition occurrence : Type := Z * (nat * json).

Definition occ_points (o : occurrence) : Z := fst o - Z.of_nat (fst (snd o)).

Definition occ_place (o : occurrence) : Z := Z.of_nat (fst (snd o)) + 1.

Definition occ_label (o : occurrence) : json := snd (snd o).

Definition labels_of (ranking : Z * json) : list occurrence :=
  map (fun item => (fst ranking, item))
    (enumerate (elements (parsed_ranking_of (snd ranking)))).

Definition ranked_labels (files : store) : list occurrence :=
  flat_map labels_of (processed_rankings files).

Definition has_key (k : pykey) (o : occurrence) : bool :=
  match hash_key (occ_label o) with
  | Ok k' => pykey_eqb k k'
  | Raise _ => false
  end.

(** The occurrences of the label whose key is [k]. *)
Definition occurrences (k : pykey) (files : store) : list occurrence :=
  filter (has_key k) (ranked_labels files).

(** ** Examples *)

Definition judge (ranker : string) (ranking : list string) : json :=
  JObj [("model", JStr ranker); ("parsed_ranking", JArr (map JStr ranking))].

Definition assistant (stage2 : json) : json :=
  JObj [("role", JStr "assistant"); ("stage1", JArr []); ("stage2", stage2);
        ("stage3", JObj [])].

Definition conversation_of (id : string) (messages : list json) : json :=
  JObj [("id", JStr id); ("created_at", JStr "2025-01-01T00:00:00");
        ("title", JStr "New Conversation"); ("messages", JArr messages)].

Definition one_judge_store : store :=
  [("c1.json",
    conversation_of "c1" [assistant (JArr [judge "judgeA" ["m1"; "m2"]])])].

(** A leaderboard entry as it is returned. *)
Definition entry (label : string) (points received first second third : Z)
    (avg_position avg_points : float) : scores :=
  {| model := JStr label;
     total_points := points;
     rankings_received := received;
     first_places := first;
     second_places := second;
     third_places := third;
     position_history := None;
     average_position := Some avg_position;
     average_points := Some avg_points |}.

Definition one_judge_result : overall :=
  {| leaderboard := [entry "m1" 1 1 1 0 0 (float_div 1 1) (float_div 1 1);
                     entry "m2" 0 1 0 1 0 (float_div 2 1) (float_div 0 1)];
     total_conversations_analyzed := 1;
     total_rankings_processed := 1 |}.

(** One judge that ranks three labels: the third one gets [1 - 2]. *)
Definition long_ranking_store : store :=
  [("c2.json",
    conversation_of "c2"
      [assistant (JArr [judge "judgeA" ["m1"; "m2"; "m3"]])])].

Definition long_ranking_result : overall :=
  {| leaderboard := [entry "m1" 1 1 1 0 0 (float_div 1 1) (float_div 1 1);
                     entry "m2" 0 1 0 1 0 (float_div 2 1) (float_div 0 1);
                     entry "m3" (-1) 1 0 0 1 (float_div 3 1) (float_div (-1) 1)];
     total_conversations_analyzed := 1;
     total_rankings_processed := 1 |}.

(** Two judges, the first of which ranks four labels and the second
    nothing: [len(stage2)] is 2, and the labels get 2, 1, 0 and -1. *)
Definition two_judge_store : store :=
  [("c6.json",
    conversation_of "c6"
      [assistant (JArr [judge "judgeA" ["m1"; "m2"; "m3"; "m4"];
                        judge "judgeB" []])])].

Definition two_judge_result : overall :=
  {| leaderboard := [entry "m1" 2 1 1 0 0 (float_div 1 1) (float_div 2 1);
                     entry "m2" 1 1 0 1 0 (float_div 2 1) (float_div 1 1);
                     entry "m3" 0 1 0 0 1 (float_div 3 1) (float_div 0 1);
                     entry "m4" (-1) 1 0 0 0 (float_div 4 1) (float_div (-1) 1)];
     total_conversations_analyzed := 1;
     total_rankings_processed := 1 |}.

(** A conversation with a user message, an assistant message without
    rankings and two assistant messages with two judges each, one of which
    ranked nothing; an archived conversation; a file that is no [.json]. *)
Definition mixed_store : store :=
  [("c3.json",
    conversation_of "c3"
      [JObj [("role", JStr "user"); ("content", JStr "hello")];
       assistant (JArr []);
       assistant (JArr [judge "judgeA" ["m1"; "m2"]; judge "judgeB" ["m2"; "m1"]]);
       assistant (JArr [judge "judgeA" ["m2"; "m1"]; judge "judgeB" []])]);
   ("c4.json",
    JObj [("id", JStr "c4"); ("archived", JBool true);
          ("messages",
           JArr [assistant (JArr [judge "judgeA" ["m9"; "m1"]])])]);
   ("notes.txt", JStr "not a conversation")].

Definition mixed_result : overall :=
  {| leaderboard := [entry "m2" 5 3 2 1 0 (float_div 4 3) (float_div 5 3);
                     entry "m1" 4 3 1 2 0 (float_div 5 3) (float_div 4 3)];
     total_conversations_analyzed := 2;
     total_rankings_processed := 3 |}.

(** A judge whose parsed_ranking is a number. *)
Definition number_ranking_store : store :=
  [("c5.json",
    conversation_of "c5"
      [assistant (JArr [JObj [("model", JStr "judgeA");
                              ("parsed_ranking", JNum 7)]])])].

(** ** Which stores the scan accepts *)

Definition is_dict (v : json) : bool :=
  match v with
  | JObj _ => true
  | _ => false
  end.

Definition iterable (v : json) : bool :=
  match py_iter v with
  | Ok _ => true
  | Raise _ => false
  end.

Definition hashable (v : json) : bool :=
  match hash_key v with
  | Ok _ => true
  | Raise _ => false
  end.

(** A ranking result is a dict whose parsed_ranking, if not empty, is a
    sequence of labels that can be dict keys. *)
Definition shaped_ranking (ranking_result : json) : bool :=
  is_dict ranking_result
  && (negb (has_ranking ranking_result)
      || (iterable (parsed_ranking_of ranking_result)
          && forallb hashable (elements (parsed_ranking_of ranking_result)))).

(** A message is a dict whose stage2, if it is an assistant message and
    stage2 is not empty, is a sequence of shaped ranking results. *)
Definition shaped_message (message : json) : bool :=
  is_dict message
  && (negb (is_analyzed message)
      || (iterable (stage2_of message)
          && forallb shaped_ranking (elements (stage2_of message)))).

(** A [.json] file holds a dict that is archived or whose messages are a
    sequence of shaped messages. *)
Definition shaped_file (file : string * json) : bool :=
  negb (endswith (fst file) ".json")
  || (is_dict (snd file)
      && (is_archived (snd file)
          || (iterable (field (snd file) "messages" (JArr []))
              && forallb shaped_message (messages_of (snd file))))).

Definition well_shaped (files : store) : bool := forallb shaped_file files.

(** ** The state of the scan, label by label *)

(** The award of one occurrence. *)
Definition award_occ (ms : model_scores_t) (o : occurrence)
  : result model_scores_t :=
  award (fst o) ms (snd o).

(** What an entry of [model_scores] holds for a label, absent entries
    reading as the fresh entry does. *)
Definition pts (o : option scores) : Z :=
  match o with Some s => total_points s | None => 0 end.

Definition rcv (o : option scores) : Z :=
  match o with Some s => rankings_received s | None => 0 end.

Definition podium (o : option scores) : Z :=
  match o with
  | Some s => first_places s + second_places s + third_places s
  | None => 0
  end.

Definition hist (o : option scores) : list Z :=
  match o with
  | Some s => match position_history s with Some h => h | None => [] end
  | None => []
  end.

(** Every entry sits under the key of its own [model], once, with its
    position history. *)
Definition keyed (ms : model_scores_t) : Prop :=
  NoDup (map fst ms)
  /\ forall k s, In (k, s) ms ->
       hash_key (model s) = Ok k /\ position_history s <> None.

(** The same of the [model_scores] of a scan state. *)
Definition keyed_state (st : scan_state) : Prop := keyed (fst (fst st)).

(** An entry holds the tallies of the occurrences [mine] of its label. *)
Definition tallies (s : scores) (mine : list occurrence) : Prop :=
  total_points s = sum (map occ_points mine)
  /\ rankings_received s = Z.of_nat (List.length mine)
  /\ position_history s = Some (map occ_place mine)
  /\ 0 <= first_places s + second_places s + third_places s
       <= Z.of_nat (List.length mine).

(** The order the sort leaves between an entry and the next. *)
Definition by_points_desc (a b : scores) : Prop :=
  total_points a >= total_points b.

(** ** Creating and listing conversations *)


(** The number a value is as an operand of [==] and [<]. *)
Definition number_of (v : json) : option Z :=
  match v with
  | JBool b => Some (if b then 1 else 0)
  | JNum n => Some n
  | _ => None
  end.

(** [a == b]: numbers by value, lists element by element, dicts key by
    key in any order. *)
Fixpoint py_eq (a b : json) : bool :=
  match a, b with
  | JNull, JNull => true
  | JStr s, JStr t => String.eqb s t
  | JArr l1, JArr l2 =>
      (fix all_eq (l1 l2 : list json) : bool :=
         match l1, l2 with
         | [], [] => true
         | x :: l1', y :: l2' => py_eq x y && all_eq l1' l2'
         | _, _ => false
         end) l1 l2
  | JObj m1, JObj m2 =>
      (List.length m1 =? List.length m2)%nat
      && (fix all_in (m : list (string * json)) : bool :=
            match m with
            | [] => true
            | (k, v) :: m' =>
                match lookup k m2 with
                | Some w => py_eq v w
                | None => false
                end && all_in m'
            end) m1
  | _, _ =>
      match number_of a, number_of b with
      | Some x, Some y => x =? y
      | _, _ => false
      end
  end.

(** [a < b]: numbers with numbers, strings with strings, lists with lists
    at the first place where they differ; anything else raises. *)
Fixpoint py_lt (a b : json) : result bool :=
  match a, b with
  | JStr s, JStr t => Ok (String.ltb s t)
  | JArr l1, JArr l2 =>
      (fix first_diff (l1 l2 : list json) : result bool :=
         match l1, l2 with
         | [], [] => Ok false
         | [], _ :: _ => Ok true
         | _ :: _, [] => Ok false
         | x :: l1', y :: l2' =>
             if py_eq x y then first_diff l1' l2' else py_lt x y
         end) l1 l2
  | _, _ =>
      match number_of a, number_of b with
      | Some x, Some y => Ok (x <? y)
      | _, _ => Raise TypeError
      end
  end.

Definition created_at (metadata : json) : json := field metadata "created_at" JNull.

(** [list.sort(key=created_at, reverse=True)], which only asks [<] of the
    keys and keeps the order of entries it finds no difference between: an
    entry goes behind the entries that followed it and are newer. *)
Fixpoint insert_newest (x : json) (l : list json) : result (list json) :=
  match l with
  | [] => Ok [x]
  | y :: l' =>
      older <- py_lt (created_at x) (created_at y) ;;
      if older then
        rest <- insert_newest x l' ;;
        Ok (y :: rest)
      else Ok (x :: l)
  end.

Fixpoint sort_newest (l : list json) : result (list json) :=
  match l with
  | [] => Ok []
  | x :: l' =>
      sorted <- sort_newest l' ;;
      insert_newest x sorted
  end.

(** The metadata dict of one conversation. *)
Definition metadata_of (data : json) : result json :=
  id <- py_getitem data "id" ;;
  created <- py_getitem data "created_at" ;;
  title <- py_get data "title" (JStr "New Conversation") ;;
  messages <- py_getitem data "messages" ;;
  message_count <- py_len messages ;;
  archived <- py_get data "archived" (JBool false) ;;
  Ok (JObj [("id", id);
            ("created_at", created);
            ("title", title);
            ("message_count", JNum message_count);
            ("archived", archived)]).

(** Body of the loop of [list_conversations] over the directory listing. *)
Definition list_file (include_archived : bool) (conversations : list json)
    (file : string * json) : result (list json) :=
  let '(filename, data) := file in
  if negb (endswith filename ".json") then Ok conversations
  else
    skip <-
      (if include_archived then Ok false
       else archived <- py_get data "archived" (JBool false) ;;
            Ok (truthy archived)) ;;
    if skip then Ok conversations
    else
      metadata <- metadata_of data ;;
      Ok (conversations ++ [metadata])%list.

Definition list_conversations (include_archived : bool) (files : store)
  : result (list json) :=
  conversations <- foldM (list_file include_archived) [] files ;;
  sort_newest conversations.

(** The [.json] files that [list_conversations] shows. *)
Definition listed (include_archived : bool) (files : store) : list json :=
  filter (fun c => include_archived || negb (is_archived c))
    (map snd (filter (fun f => endswith (fst f) ".json") files)).

(** Three conversations, the second archived, in no order of creation. *)
Definition dated_store : store :=
  [("a.json",
    JObj [("id", JStr "a"); ("created_at", JStr "2025-01-02T10:00:00");
          ("title", JStr "Second"); ("messages", JArr [JStr "m"])]);
   ("b.json",
    JObj [("id", JStr "b"); ("created_at", JStr "2025-01-03T10:00:00");
          ("messages", JArr []); ("archived", JBool true)]);
   ("c.json",
    JObj [("id", JStr "c"); ("created_at", JStr "2025-01-04T10:00:00");
          ("messages", JArr [])])].

(** ** What a store operation leaves *)

(** The file of [conversation_id] holds a conversation whose own id is
    rendered as [conversation_id] is. *)
Definition stored_under_own_id (format : json -> string)
    (conversation_id : json) (files : store) : Prop :=
  forall conversation id,
    read_file (get_conversation_path format conversation_id) files
      = Some conversation ->
    py_getitem conversation "id" = Ok id ->
    format id = format conversation_id.

(** [files'] is [files] after [message] was appended to the conversation
    found under [conversation_id] and the conversation was saved under its
    own id. *)
Definition appended (format : json -> string) (conversation_id message : json)
    (files files' : store) : Prop :=
  exists conversation id messages conversation',
    read_file (get_conversation_path format conversation_id) files
      = Some conversation
    /\ py_getitem conversation "id" = Ok id
    /\ py_getitem conversation "messages" = Ok (JArr messages)
    /\ py_getitem conversation' "messages"
       = Ok (JArr (messages ++ [message])%list)
    /\ (forall k, k <> "messages" ->
          py_getitem conversation' k = py_getitem conversation k)
    /\ files' = write_file (get_conversation_path format id) conversation' files
    /\ get_conversation format id files' = (Ok conversation', files').

(** [files'] is [files] after the key [k] of the conversation found under
    [conversation_id] was set to [v] and the conversation was saved under
    its own id. *)
Definition field_set (format : json -> string) (conversation_id : json)
    (k : string) (v : json) (files files' : store) : Prop :=
  exists conversation id conversation',
    read_file (get_conversation_path format conversation_id) files
      = Some conversation
    /\ py_getitem conversation "id" = Ok id
    /\ py_getitem conversation' k = Ok v
    /\ (forall k', k' <> k ->
          py_getitem conversation' k' = py_getitem conversation k')
    /\ files' = write_file (get_conversation_path format id) conversation' files
    /\ get_conversation format id files' = (Ok conversation', files').

(** ** What a listing shows *)

(** [metadata] is the metadata dict of [conversation]. *)
Definition describes (conversation metadata : json) : Prop :=
  exists id created messages n,
    py_getitem conversation "id" = Ok id
    /\ py_getitem conversation "created_at" = Ok created
    /\ py_getitem conversation "messages" = Ok messages
    /\ py_len messages = Ok n
    /\ metadata =
       JObj [("id", id);
             ("created_at", created);
             ("title", field conversation "title" (JStr "New Conversation"));
             ("message_count", JNum n);
             ("archived", field conversation "archived" (JBool false))].

(** A conversation as the operations of the store write it: a dict with an
    id, a creation time that is a string and a list of messages. *)
Definition conversation_ok (conversation : json) : bool :=
  match conversation with
  | JObj members =>
      match lookup "id" members, lookup "created_at" members,
            lookup "messages" members with
      | Some _, Some (JStr _), Some (JArr _) => true
      | _, _, _ => false
      end
  | _ => false
  end.

Definition store_ok (files : store) : Prop :=
  Forall (fun f => conversation_ok (snd f) = true) files.

(** [a] is not older than [b], as far as [<] on their created_at tells. *)
Definition not_older (a b : json) : Prop :=
  py_lt (created_at b) (created_at a) = Ok true
  \/ py_lt (created_at a) (created_at b) = Ok false.

(** A metadata dict whose created_at is a string. *)
Definition dated (metadata : json) : Prop :=
  exists s, created_at metadata = JStr s.

(** ** Places and first appearances *)

Definition firsts (o : option scores) : Z :=
  match o with Some s => first_places s | None => 0 end.

Definition seconds (o : option scores) : Z :=
  match o with Some s => second_places s | None => 0 end.

Definition thirds (o : option scores) : Z :=
  match o with Some s => third_places s | None => 0 end.

(** How many of the occurrences are at the 0-indexed position [p]. *)
Definition place_count (p : nat) (mine : list occurrence) : Z :=
  Z.of_nat (List.length (filter (fun o => (fst (snd o) =? p)%nat) mine)).

(** The keys seen so far, with the key of one more ranked label. *)
Definition seen (keys : list pykey) (o : occurrence) : list pykey :=
  match hash_key (occ_label o) with
  | Ok k => if existsb (pykey_eqb k) keys then keys else (keys ++ [k])%list
  | Raise _ => keys
  end.

(** The keys of the ranked labels, each once, in the order in which the
    scan first meets them. *)
Definition first_seen (occs : list occurrence) : list pykey :=
  fold_left seen occs [].

Definition has_points (p : Z) (e : scores) : bool := total_points e =? p.

(** Two messages with one judge each, who rank the same two labels in
    opposite orders: both labels end with one point. *)
Definition tie_store : store :=
  [("c7.json",
    conversation_of "c7"
      [assistant (JArr [judge "judgeA" ["left"; "right"]]);
       assistant (JArr [judge "judgeB" ["right"; "left"]])])].

Definition tie_result : overall :=
  {| leaderboard := [entry "left" 1 2 1 1 0 (float_div 3 2) (float_div 1 2);
                     entry "right" 1 2 1 1 0 (float_div 3 2) (float_div 1 2)];
     total_conversations_analyzed := 2;
     total_rankings_processed := 2 |}.

(** ** Loops and dictionaries *)

Lemma bind_ok {A B : Type} (c : result A) (k : A -> result B) (b : B) :
  bind c k = Ok b -> exists a, c = Ok a /\ k a = Ok b.
Proof.
  destruct c as [a | e]; simpl; intros H; [eauto | discriminate].
Qed.

Lemma foldM_app {A S : Type} (body : S -> A -> result S) (l1 l2 : list A) :
  forall s, foldM body s (l1 ++ l2) = (s' <- foldM body s l1 ;; foldM body s' l2).
Proof.
  induction l1 as [| x l1 IH]; intros s; simpl; [reflexivity |].
  destruct (body s x) as [s1 | e]; simpl; [apply IH | reflexivity].
Qed.

(** A property kept by every successful turn of a loop holds when the loop
    ends. *)
Lemma foldM_invariant {A S : Type} (P : S -> Prop) (body : S -> A -> result S)
    (l : list A) :
  (forall s x s', P s -> body s x = Ok s' -> P s') ->
  forall s s', P s -> foldM body s l = Ok s' -> P s'.
Proof.
  intros Hstep; induction l as [| x l IH]; intros s s' Hs Hrun; simpl in Hrun.
  - injection Hrun as <-; exact Hs.
  - apply bind_ok in Hrun as (s1 & H1 & H2); eauto.
Qed.

Lemma pykey_eqb_eq (a b : pykey) : pykey_eqb a b = true <-> a = b.
Proof.
  destruct a, b; simpl; split; intros H;
    try discriminate; try reflexivity.
  - apply Z.eqb_eq in H; congruence.
  - injection H as ->; apply Z.eqb_refl.
  - apply String.eqb_eq in H; congruence.
  - injection H as ->; apply String.eqb_refl.
Qed.

Lemma pykey_eqb_refl (a : pykey) : pykey_eqb a a = true.
Proof. apply pykey_eqb_eq; reflexivity. Qed.

Lemma pykey_eqb_neq (a b : pykey) : pykey_eqb a b = false <-> a <> b.
Proof.
  rewrite <- pykey_eqb_eq; destruct (pykey_eqb a b); split; congruence.
Qed.

Lemma find_set_scores (k k' : pykey) (s : scores) (ms : model_scores_t) :
  find_scores k (set_scores k' s ms) =
  if pykey_eqb k k' then Some s else find_scores k ms.
Proof.
  induction ms as [| [k0 s0] ms IH]; simpl.
  - reflexivity.
  - destruct (pykey_eqb k' k0) eqn:E0; simpl.
    + apply pykey_eqb_eq in E0; subst k0.
      destruct (pykey_eqb k k'); reflexivity.
    + destruct (pykey_eqb k k0) eqn:E1.
      * apply pykey_eqb_eq in E1; subst k0.
        destruct (pykey_eqb k k') eqn:E2; [| reflexivity].
        apply pykey_eqb_eq in E2; subst k'.
        rewrite pykey_eqb_refl in E0; discriminate.
      * exact IH.
Qed.

Lemma keys_set_scores (k : pykey) (s : scores) (ms : model_scores_t) :
  map fst (set_scores k s ms) =
  match find_scores k ms with
  | Some _ => map fst ms
  | None => (map fst ms ++ [k])%list
  end.
Proof.
  induction ms as [| [k0 s0] ms IH]; simpl; [reflexivity |].
  destruct (pykey_eqb k k0) eqn:E; simpl; [reflexivity |].
  rewrite IH; destruct (find_scores k ms); reflexivity.
Qed.

Lemma find_scores_none (k : pykey) (ms : model_scores_t) :
  find_scores k ms = None <-> ~ In k (map fst ms).
Proof.
  induction ms as [| [k0 s0] ms IH]; simpl.
  - tauto.
  - destruct (pykey_eqb k k0) eqn:E.
    + apply pykey_eqb_eq in E; subst; split; [discriminate | tauto].
    + apply pykey_eqb_neq in E; rewrite IH; split; [intros H [H1 | H1] |];
        try tauto; congruence.
Qed.

Lemma find_scores_in (k : pykey) (s : scores) (ms : model_scores_t) :
  find_scores k ms = Some s -> In (k, s) ms.
Proof.
  induction ms as [| [k0 s0] ms IH]; simpl; [discriminate |].
  destruct (pykey_eqb k k0) eqn:E.
  - apply pykey_eqb_eq in E; subst; intros H; injection H as ->; now left.
  - intros H; right; auto.
Qed.

Lemma in_find_scores (k : pykey) (s : scores) (ms : model_scores_t) :
  NoDup (map fst ms) -> In (k, s) ms -> find_scores k ms = Some s.
Proof.
  induction ms as [| [k0 s0] ms IH]; simpl; [tauto |].
  intros Hnd [Hin | Hin]; inversion Hnd as [| ? ? Hnot Hnd']; subst.
  - injection Hin as -> ->; rewrite pykey_eqb_refl; reflexivity.
  - destruct (pykey_eqb k k0) eqn:E; [| auto].
    apply pykey_eqb_eq in E; subst k0.
    exfalso; apply Hnot; change k with (fst (k, s)); now apply in_map.
Qed.

Lemma in_set_scores (k : pykey) (s : scores) (ms : model_scores_t) (x : pykey * scores) :
  In x (set_scores k s ms) -> x = (k, s) \/ In x ms.
Proof.
  induction ms as [| [k0 s0] ms IH]; simpl.
  - intros [H | []]; auto.
  - destruct (pykey_eqb k k0) eqn:E; simpl.
    + apply pykey_eqb_eq in E; subst k0; intros [H | H]; auto.
    + intros [H | H]; auto. destruct (IH H); auto.
Qed.

(** ** One ranked label at a time *)

Lemma award_find (ms ms' : model_scores_t) (o : occurrence) :
  award_occ ms o = Ok ms' ->
  forall k,
    if has_key k o then
      exists s',
        find_scores k ms' = Some s'
        /\ total_points s' = pts (find_scores k ms) + occ_points o
        /\ rankings_received s' = rcv (find_scores k ms) + 1
        /\ position_history s' = Some (hist (find_scores k ms) ++ [occ_place o])%list
        /\ podium (find_scores k ms) <= podium (Some s') <= podium (find_scores k ms) + 1
    else find_scores k ms' = find_scores k ms.
Proof.
  destruct o as [n [p l]]; unfold award_occ, award, has_key, occ_label; simpl.
  intros H k.
  apply bind_ok in H as (kl & Hk & H); rewrite Hk.
  apply bind_ok in H as (h & Hh & H); injection H as <-.
  rewrite find_set_scores.
  destruct (pykey_eqb k kl) eqn:E; [| reflexivity].
  apply pykey_eqb_eq in E; subst kl.
  eexists; split; [reflexivity |]; simpl.
  unfold occ_points, occ_place, history in *; simpl.
  destruct (find_scores k ms) as [s |]; simpl in *.
  - destruct (position_history s); [injection Hh as -> | discriminate].
    repeat split; try reflexivity;
      destruct p as [| [| [| p]]]; simpl; lia.
  - injection Hh as <-.
    repeat split; try reflexivity;
      destruct p as [| [| [| p]]]; simpl; lia.
Qed.

Lemma has_key_occ (k : pykey) (o : occurrence) :
  has_key k o = true <-> hash_key (occ_label o) = Ok k.
Proof.
  unfold has_key; destruct (hash_key (occ_label o)) as [k' |]; split; intros H;
    try discriminate.
  - apply pykey_eqb_eq in H; congruence.
  - injection H as ->; apply pykey_eqb_refl.
Qed.

(** The entry of a label after a run of awards: what it held before, plus
    what the label's own occurrences brought. *)
Lemma awards_find (occs : list occurrence) :
  forall ms ms', foldM award_occ ms occs = Ok ms' ->
  forall k,
    let mine := filter (has_key k) occs in
    pts (find_scores k ms') = pts (find_scores k ms) + sum (map occ_points mine)
    /\ rcv (find_scores k ms') = rcv (find_scores k ms) + Z.of_nat (List.length mine)
    /\ hist (find_scores k ms') = (hist (find_scores k ms) ++ map occ_place mine)%list
    /\ podium (find_scores k ms) <= podium (find_scores k ms')
         <= podium (find_scores k ms) + Z.of_nat (List.length mine)
    /\ (mine = [] -> find_scores k ms' = find_scores k ms)
    /\ (mine <> [] ->
        exists s', find_scores k ms' = Some s' /\ position_history s' <> None).
Proof.
  induction occs as [| o occs IH]; intros ms ms' Hrun k; simpl in Hrun.
  - injection Hrun as <-; simpl.
    rewrite app_nil_r; repeat split; try lia; congruence.
  - apply bind_ok in Hrun as (ms1 & Hstep & Hrest).
    specialize (IH _ _ Hrest k); cbv zeta in IH.
    destruct IH as (Hp & Hr & Hh & Hpod & Hnil & Hsome).
    pose proof (award_find _ _ _ Hstep k) as Hone.
    cbv zeta; simpl filter.
    destruct (has_key k o) eqn:Ek.
    + destruct Hone as (s1 & Hf & Hp1 & Hr1 & Hh1 & Hpod1).
      rewrite Hf in *; simpl in Hp, Hr, Hh, Hpod; rewrite Hh1 in Hh.
      cbn [map sum fold_right List.length].
      rewrite Hp, Hr, Hh, Hp1, Hr1, <- app_assoc.
      unfold sum; simpl in *.
      repeat split; try lia; try discriminate.
      intros _.
      destruct (filter (has_key k) occs) eqn:Em.
      * rewrite (Hnil eq_refl); exists s1; split; [reflexivity |].
        rewrite Hh1; discriminate.
      * apply Hsome; discriminate.
    + rewrite Hone in *; repeat split; tauto.
Qed.

Lemma keyed_nil : keyed [].
Proof. split; [constructor | intros k s []]. Qed.

Lemma award_keyed (ms ms' : model_scores_t) (o : occurrence) :
  keyed ms -> award_occ ms o = Ok ms' -> keyed ms'.
Proof.
  destruct o as [n [p l]]; unfold award_occ, award; simpl.
  intros [Hnd Hall] H.
  apply bind_ok in H as (kl & Hk & H).
  apply bind_ok in H as (h & Hh & H); injection H as <-.
  split.
  - rewrite keys_set_scores.
    destruct (find_scores kl ms) eqn:Ef; [exact Hnd |].
    apply NoDup_app_remove_l with (l := []), Permutation_NoDup
      with (l := kl :: map fst ms).
    + simpl. apply Permutation_cons_append.
    + constructor; [apply find_scores_none, Ef | exact Hnd].
  - intros k s Hin; apply in_set_scores in Hin as [Heq | Hin]; [| auto].
    injection Heq as -> ->; simpl; split; [| discriminate].
    destruct (find_scores kl ms) as [s0 |] eqn:Ef; simpl; [| exact Hk].
    apply find_scores_in in Ef; apply (Hall _ _ Ef).
Qed.

Lemma awards_keyed (occs : list occurrence) (ms ms' : model_scores_t) :
  keyed ms -> foldM award_occ ms occs = Ok ms' -> keyed ms'.
Proof.
  apply foldM_invariant; intros s x s' Hs Hx; eapply award_keyed; eauto.
Qed.

(** An award raises only on a label that cannot be a key, as long as the
    entries have their history. *)
Lemma award_total (ms : model_scores_t) (o : occurrence) (k : pykey) :
  keyed ms -> hash_key (occ_label o) = Ok k ->
  exists ms', award_occ ms o = Ok ms'.
Proof.
  destruct o as [n [p l]]; unfold award_occ, award, occ_label; simpl.
  intros [_ Hall] ->; simpl.
  destruct (find_scores k ms) as [s |] eqn:Ef; simpl.
  - apply find_scores_in, Hall in Ef as [_ Hh]; unfold history.
    destruct (position_history s); [simpl; eauto | congruence].
  - eauto.
Qed.

(** ** The scan as a run of awards *)

Lemma py_get_field (v : json) (k : string) (d w : json) :
  py_get v k d = Ok w -> field v k d = w.
Proof. unfold field; intros ->; reflexivity. Qed.

Lemma py_iter_elements (v : json) (l : list json) :
  py_iter v = Ok l -> elements v = l.
Proof. unfold elements; intros ->; reflexivity. Qed.

Lemma py_len_size (v : json) (n : Z) : py_len v = Ok n -> size v = n.
Proof. unfold size; intros ->; reflexivity. Qed.

Lemma foldM_map {A B S : Type} (body : S -> B -> result S) (g : A -> B)
    (l : list A) :
  forall s, foldM body s (map g l) = foldM (fun s x => body s (g x)) s l.
Proof.
  induction l as [| x l IH]; intros s; simpl; [reflexivity |].
  destruct (body s (g x)); simpl; auto.
Qed.

Lemma state_eq (ms : model_scores_t) (tc tc' tr tr' : Z) :
  tc = tc' -> tr = tr' -> (ms, tc, tr) = (ms, tc', tr').
Proof. intros -> ->; reflexivity. Qed.

Ltac same_state :=
  apply state_eq; rewrite ?length_app; cbn [List.length map filter flat_map app];
  rewrite ?length_app; cbn [List.length]; lia.

Ltac step_ok H :=
  let H' := fresh H in
  apply bind_ok in H as (? & H' & H).

Lemma process_ranking_run (n : Z) (ms : model_scores_t) (tc tr : Z)
    (rr : json) (st' : scan_state) :
  process_ranking n (ms, tc, tr) rr = Ok st' ->
  let rs := map (fun r => (n, r)) (filter has_ranking [rr]) in
  exists ms',
    st' = (ms', tc, tr + Z.of_nat (List.length rs))
    /\ foldM award_occ ms (flat_map labels_of rs) = Ok ms'.
Proof.
  unfold process_ranking; intros H.
  step_ok H. step_ok H.
  apply py_get_field in H1.
  cbn [filter]; unfold has_ranking, parsed_ranking_of; rewrite H1.
  destruct (truthy x0); simpl in *.
  - step_ok H. step_ok H. injection H as <-.
    exists x2; split; [reflexivity |].
    unfold labels_of, parsed_ranking_of; simpl.
    rewrite H1, (py_iter_elements _ _ H2), app_nil_r, foldM_map; exact H3.
  - injection H as <-; exists ms; split; [same_state | reflexivity].
Qed.

Lemma rankings_run (n : Z) (rrs : list json) :
  forall ms tc tr st',
    foldM (process_ranking n) (ms, tc, tr) rrs = Ok st' ->
    let rs := map (fun r => (n, r)) (filter has_ranking rrs) in
    exists ms',
      st' = (ms', tc, tr + Z.of_nat (List.length rs))
      /\ foldM award_occ ms (flat_map labels_of rs) = Ok ms'.
Proof.
  induction rrs as [| rr rrs IH]; intros ms tc tr st' H; simpl in H.
  - injection H as <-; exists ms; split; [same_state | reflexivity].
  - step_ok H.
    apply process_ranking_run in H0 as (ms1 & -> & Hone).
    apply IH in H as (ms2 & -> & Hrest).
    exists ms2; cbn [filter] in *.
    destruct (has_ranking rr); cbn [map flat_map List.length app] in *.
    + split; [same_state |].
      rewrite app_nil_r in Hone; rewrite foldM_app, Hone; exact Hrest.
    + injection Hone as <-; split; [same_state | exact Hrest].
Qed.

Lemma process_message_run (ms : model_scores_t) (tc tr : Z) (m : json)
    (st' : scan_state) :
  process_message (ms, tc, tr) m = Ok st' ->
  let am := filter is_analyzed [m] in
  exists ms',
    st' = (ms', tc + Z.of_nat (List.length am),
           tr + Z.of_nat (List.length (flat_map rankings_of am)))
    /\ foldM award_occ ms (flat_map labels_of (flat_map rankings_of am)) = Ok ms'.
Proof.
  unfold process_message; intros H.
  step_ok H. apply py_get_field in H0.
  cbn [filter]; unfold is_analyzed, stage2_of; rewrite H0.
  destruct (is_str x "assistant"); simpl in H |- *.
  - step_ok H. apply py_get_field in H1; rewrite H1.
    destruct (truthy x0); simpl in H |- *.
    + step_ok H. step_ok H.
      apply rankings_run in H as (ms' & -> & Hrun).
      exists ms'. rewrite app_nil_r.
      unfold rankings_of, stage2_of.
      rewrite H1, (py_len_size _ _ H2), (py_iter_elements _ _ H3).
      split; [same_state | exact Hrun].
    + injection H as <-; exists ms; split; [same_state | reflexivity].
  - injection H as <-; exists ms; split; [same_state | reflexivity].
Qed.

Lemma messages_run (msgs : list json) :
  forall ms tc tr st',
    foldM process_message (ms, tc, tr) msgs = Ok st' ->
    let am := filter is_analyzed msgs in
    exists ms',
      st' = (ms', tc + Z.of_nat (List.length am),
             tr + Z.of_nat (List.length (flat_map rankings_of am)))
      /\ foldM award_occ ms (flat_map labels_of (flat_map rankings_of am)) = Ok ms'.
Proof.
  induction msgs as [| m msgs IH]; intros ms tc tr st' H; simpl in H.
  - injection H as <-; exists ms; split; [same_state | reflexivity].
  - step_ok H.
    apply process_message_run in H0 as (ms1 & -> & Hone).
    apply IH in H as (ms2 & -> & Hrest).
    exists ms2; cbn [filter] in *.
    destruct (is_analyzed m); cbn [flat_map List.length app] in *.
    + rewrite app_nil_r in Hone.
      rewrite flat_map_app, foldM_app, Hone, length_app.
      split; [same_state | exact Hrest].
    + injection Hone as <-; split; [same_state | exact Hrest].
Qed.

Lemma analyzed_messages_cons (name : string) (data : json) (files : store) :
  analyzed_messages ((name, data) :: files) =
  ((if endswith name ".json" && negb (is_archived data)
    then filter is_analyzed (messages_of data) else [])
   ++ analyzed_messages files)%list.
Proof.
  unfold analyzed_messages, live_conversations; cbn [filter fst].
  destruct (endswith name ".json"); cbn [map snd filter andb]; [| reflexivity].
  destruct (is_archived data); cbn [negb flat_map]; [reflexivity |].
  apply filter_app.
Qed.

Lemma files_run (files : store) :
  forall ms tc tr st',
    foldM process_file (ms, tc, tr) files = Ok st' ->
    let am := analyzed_messages files in
    exists ms',
      st' = (ms', tc + Z.of_nat (List.length am),
             tr + Z.of_nat (List.length (flat_map rankings_of am)))
      /\ foldM award_occ ms (flat_map labels_of (flat_map rankings_of am)) = Ok ms'.
Proof.
  induction files as [| [name data] files IH]; intros ms tc tr st' H; simpl in H.
  - injection H as <-; exists ms.
    change (analyzed_messages []) with (@nil json).
    split; [same_state | reflexivity].
  - step_ok H. destruct x as [[ms1 tc1] tr1].
    apply IH in H as (ms2 & -> & Hrest); clear IH.
    cbv zeta; rewrite analyzed_messages_cons.
    destruct (endswith name ".json"); simpl in H0.
    + step_ok H0. apply py_get_field in H1.
      assert (Ha : is_archived data = truthy x)
        by (unfold is_archived; rewrite H1; reflexivity).
      rewrite Ha; destruct (truthy x); simpl in H0 |- *.
      * injection H0 as <- <- <-; eauto.
      * step_ok H0. step_ok H0. apply py_get_field in H2.
        apply messages_run in H0 as (ms' & Heq & Hone).
        injection Heq as <- -> ->.
        unfold messages_of.
        rewrite H2, (py_iter_elements _ _ H3).
        rewrite !flat_map_app, foldM_app, Hone.
        exists ms2; split; [same_state | exact Hrest].
    + injection H0 as <- <- <-; eauto.
Qed.

(** A scan that returns has run the awards of the ranked labels, in order,
    and has counted the analyzed messages and the processed rankings. *)
Lemma scan_run (files : store) (ms : model_scores_t) (tc tr : Z) :
  scan files = Ok (ms, tc, tr) ->
  foldM award_occ [] (ranked_labels files) = Ok ms
  /\ tc = Z.of_nat (List.length (analyzed_messages files))
  /\ tr = Z.of_nat (List.length (processed_rankings files)).
Proof.
  unfold scan; intros H.
  apply files_run in H as (ms' & Heq & Hrun).
  injection Heq as <- -> ->; auto.
Qed.

(** ** What the scan leaves in [model_scores] *)

Lemma scan_keyed (files : store) (ms : model_scores_t) (tc tr : Z) :
  scan files = Ok (ms, tc, tr) -> keyed ms.
Proof.
  intros H; apply scan_run in H as (Hrun & _).
  eapply awards_keyed; [apply keyed_nil | exact Hrun].
Qed.

Lemma scan_entry (files : store) (ms : model_scores_t) (tc tr : Z) :
  scan files = Ok (ms, tc, tr) ->
  forall k,
    match find_scores k ms with
    | Some s =>
        tallies s (occurrences k files)
        /\ hash_key (model s) = Ok k
        /\ occurrences k files <> []
    | None => occurrences k files = []
    end.
Proof.
  intros H k.
  pose proof (scan_keyed _ _ _ _ H) as [_ Hall].
  apply scan_run in H as (Hrun & _).
  pose proof (awards_find _ _ _ Hrun k) as Hk; cbv zeta in Hk.
  fold (occurrences k files) in Hk; simpl in Hk.
  destruct Hk as (Hp & Hr & Hh & Hpod & Hnil & Hsome).
  destruct (find_scores k ms) as [s |] eqn:Ef.
  - simpl in *; unfold tallies.
    destruct (Hall _ _ (find_scores_in _ _ _ Ef)) as [Hm Hpres].
    destruct (position_history s) as [h |]; [subst h | congruence].
    repeat split; auto; try lia.
    intros Hempty; specialize (Hnil Hempty); discriminate.
  - destruct (occurrences k files); [reflexivity |].
    destruct Hsome as (s' & Hs' & _); discriminate.
Qed.

(** ** Averages and the leaderboard *)

Lemma summarize_ok (s e : scores) :
  summarize s = Ok e ->
  exists h,
    position_history s = Some h /\ h <> []
    /\ rankings_received s <> 0
    /\ e = {| model := model s;
              total_points := total_points s;
              rankings_received := rankings_received s;
              first_places := first_places s;
              second_places := second_places s;
              third_places := third_places s;
              position_history := None;
              average_position :=
                Some (float_div (sum h) (Z.of_nat (List.length h)));
              average_points :=
                Some (float_div (total_points s) (rankings_received s)) |}.
Proof.
  unfold summarize, history, true_div; intros H.
  destruct (position_history s) as [h |]; simpl in H; [| discriminate].
  destruct (Z.of_nat (List.length h) =? 0) eqn:E1; simpl in H; [discriminate |].
  destruct (rankings_received s =? 0) eqn:E2; simpl in H; [discriminate |].
  injection H as <-; exists h.
  apply Z.eqb_neq in E1, E2.
  repeat split; auto.
  intros ->; apply E1; reflexivity.
Qed.

Lemma summarize_total (s : scores) (h : list Z) :
  position_history s = Some h -> h <> [] -> rankings_received s <> 0 ->
  exists e, summarize s = Ok e.
Proof.
  unfold summarize, history, true_div; intros -> Hh Hr; simpl.
  destruct (Z.of_nat (List.length h) =? 0) eqn:E1.
  - apply Z.eqb_eq in E1; destruct h; [congruence | simpl in E1; lia].
  - apply Z.eqb_neq in Hr; rewrite Hr; simpl; eauto.
Qed.

Lemma build_leaderboard_in (ms : model_scores_t) :
  forall board, build_leaderboard ms = Ok board ->
  forall e, In e board <->
    exists k s, In (k, s) ms /\ rankings_received s > 0 /\ summarize s = Ok e.
Proof.
  induction ms as [| [k0 s0] ms IH]; intros board H e; simpl in H.
  - injection H as <-; simpl; split; [tauto | intros (k & s & [] & _)].
  - destruct (rankings_received s0 >? 0) eqn:E.
    + apply bind_ok in H as (e0 & He0 & H).
      apply bind_ok in H as (rest & Hrest & H); injection H as <-.
      specialize (IH _ Hrest e); simpl; rewrite IH; split.
      * intros [<- | (k & s & Hin & Hr & Hs)].
        -- exists k0, s0; repeat split; auto; apply Z.gtb_lt in E; lia.
        -- exists k, s; auto.
      * intros (k & s & [Heq | Hin] & Hr & Hs).
        -- injection Heq as <- <-; left; congruence.
        -- right; exists k, s; auto.
    + specialize (IH _ H e); rewrite IH; split.
      * intros (k & s & Hin & Hr & Hs); exists k, s; simpl; auto.
      * intros (k & s & [Heq | Hin] & Hr & Hs); [| exists k, s; auto].
        injection Heq as <- <-.
        assert ((rankings_received s0 >? 0) = true) by (apply Z.gtb_lt; lia).
        congruence.
Qed.

Lemma build_leaderboard_total (ms : model_scores_t) :
  (forall k s, In (k, s) ms -> rankings_received s > 0 ->
     exists e, summarize s = Ok e) ->
  exists board, build_leaderboard ms = Ok board.
Proof.
  induction ms as [| [k0 s0] ms IH]; intros Hall; simpl; [eauto |].
  destruct IH as (rest & Hrest);
    [intros k s Hin; apply (Hall k); now right |].
  rewrite Hrest.
  destruct (rankings_received s0 >? 0) eqn:E; [| eauto].
  destruct (Hall k0 s0) as (e & He); [now left | apply Z.gtb_lt in E; lia |].
  rewrite He; simpl; eauto.
Qed.

(** ** The sort *)

Lemma insert_desc_perm (e : scores) (l : list scores) :
  Permutation (insert_desc e l) (e :: l).
Proof.
  induction l as [| x l IH]; simpl; [reflexivity |].
  destruct (total_points x >? total_points e); [| reflexivity].
  rewrite IH; apply perm_swap.
Qed.

Lemma sort_desc_perm (l : list scores) : Permutation (sort_desc l) l.
Proof.
  induction l as [| x l IH]; simpl; [reflexivity |].
  rewrite insert_desc_perm; now constructor.
Qed.

Lemma insert_desc_sorted (e : scores) (l : list scores) :
  Sorted by_points_desc l -> Sorted by_points_desc (insert_desc e l).
Proof.
  induction l as [| x l IH]; intros Hs; simpl.
  - repeat constructor.
  - inversion Hs as [| ? ? Hs' Hhd]; subst.
    destruct (total_points x >? total_points e) eqn:E.
    + constructor; [auto |].
      apply Z.gtb_lt in E.
      destruct l as [| y l]; simpl.
      * constructor; unfold by_points_desc; lia.
      * inversion Hhd; subst.
        destruct (total_points y >? total_points e); constructor;
          unfold by_points_desc in *; lia.
    + constructor; [exact Hs |].
      constructor; unfold by_points_desc.
      destruct (Z.gtb_spec (total_points x) (total_points e)); [discriminate | lia].
Qed.

Lemma sort_desc_sorted (l : list scores) : Sorted by_points_desc (sort_desc l).
Proof.
  induction l as [| x l IH]; simpl; [constructor |].
  now apply insert_desc_sorted.
Qed.

Lemma sorted_adjacent (l : list scores) :
  Sorted by_points_desc l ->
  forall i a b, nth_error l i = Some a -> nth_error l (S i) = Some b ->
    total_points a >= total_points b.
Proof.
  induction 1 as [| x l Hs IH Hhd]; intros i a b Ha Hb.
  - destruct i; discriminate.
  - destruct i as [| i]; simpl in Ha, Hb.
    + injection Ha as <-.
      destruct l as [| y l]; [discriminate |].
      injection Hb as <-; inversion Hhd; assumption.
    + eapply IH; eauto.
Qed.

(** ** From the scan to the result *)

Lemma get_overall_scores_ok (files : store) (r : overall) :
  get_overall_scores files = Ok r ->
  exists ms tc tr board,
    scan files = Ok (ms, tc, tr)
    /\ build_leaderboard ms = Ok board
    /\ r = {| leaderboard := sort_desc board;
              total_conversations_analyzed := tc;
              total_rankings_processed := tr |}.
Proof.
  unfold get_overall_scores; intros H.
  apply bind_ok in H as ([[ms tc] tr] & Hscan & H).
  apply bind_ok in H as (board & Hb & H); injection H as <-.
  exists ms, tc, tr, board; auto.
Qed.

Lemma tallies_received (s : scores) (mine : list occurrence) :
  tallies s mine -> mine <> [] -> rankings_received s >= 1.
Proof.
  intros (_ & Hr & _) Hne; rewrite Hr.
  destruct mine; [congruence | simpl; lia].
Qed.

(** The entries of the leaderboard are the summarized entries of
    [model_scores], all of them. *)
Lemma leaderboard_entries (files : store) (r : overall) (ms : model_scores_t)
    (tc tr : Z) :
  get_overall_scores files = Ok r -> scan files = Ok (ms, tc, tr) ->
  forall e, In e (leaderboard r) <->
    exists k s, find_scores k ms = Some s /\ summarize s = Ok e.
Proof.
  intros H Hscan e.
  apply get_overall_scores_ok in H as (ms' & tc' & tr' & board & Hs & Hb & ->).
  rewrite Hscan in Hs; injection Hs as <- <- <-; simpl.
  pose proof (scan_keyed _ _ _ _ Hscan) as [Hnd _].
  split.
  - intros Hin.
    apply (Permutation_in _ (sort_desc_perm board)) in Hin.
    apply (build_leaderboard_in _ _ Hb) in Hin as (k & s & Hin & _ & Hsum).
    exists k, s; split; [now apply in_find_scores | exact Hsum].
  - intros (k & s & Hf & Hsum).
    apply (Permutation_in _ (Permutation_sym (sort_desc_perm board))).
    apply (build_leaderboard_in _ _ Hb); exists k, s.
    pose proof (scan_entry _ _ _ _ Hscan k) as He; rewrite Hf in He.
    destruct He as (Ht & _ & Hne).
    pose proof (tallies_received _ _ Ht Hne).
    repeat split; [now apply find_scores_in | lia | exact Hsum].
Qed.

(** The averaging never raises on what a scan leaves. *)
Lemma scan_summarizes (files : store) (ms : model_scores_t) (tc tr : Z) :
  scan files = Ok (ms, tc, tr) ->
  forall k s, In (k, s) ms -> exists e, summarize s = Ok e.
Proof.
  intros Hscan k s Hin.
  pose proof (scan_keyed _ _ _ _ Hscan) as [Hnd _].
  pose proof (scan_entry _ _ _ _ Hscan k) as He.
  rewrite (in_find_scores _ _ _ Hnd Hin) in He.
  destruct He as (Ht & _ & Hne).
  pose proof (tallies_received _ _ Ht Hne).
  destruct Ht as (_ & _ & Hh & _).
  apply (summarize_total _ _ Hh); [| lia].
  destruct (occurrences k files); [congruence | discriminate].
Qed.

Lemma scan_returns (files : store) (st : scan_state) :
  scan files = Ok st -> exists r, get_overall_scores files = Ok r.
Proof.
  destruct st as [[ms tc] tr]; intros Hscan.
  unfold get_overall_scores; rewrite Hscan; simpl.
  destruct (build_leaderboard_total ms) as (board & ->); [| simpl; eauto].
  intros k s Hin _; eapply scan_summarizes; eauto.
Qed.

(** All that a leaderboard entry holds, from the occurrences of its label. *)
Lemma entry_facts (files : store) (r : overall) (e : scores) :
  get_overall_scores files = Ok r -> In e (leaderboard r) ->
  exists k,
    hash_key (model e) = Ok k
    /\ occurrences k files <> []
    /\ tallies
         {| model := model e;
            total_points := total_points e;
            rankings_received := rankings_received e;
            first_places := first_places e;
            second_places := second_places e;
            third_places := third_places e;
            position_history := Some (map occ_place (occurrences k files));
            average_position := None;
            average_points := None |}
         (occurrences k files)
    /\ position_history e = None
    /\ average_position e =
         Some (float_div (sum (map occ_place (occurrences k files)))
                 (Z.of_nat (List.length (occurrences k files))))
    /\ average_points e =
         Some (float_div (total_points e) (rankings_received e)).
Proof.
  intros H Hin.
  destruct (get_overall_scores_ok _ _ H) as (ms & tc & tr & board & Hscan & _).
  destruct (proj1 (leaderboard_entries _ _ _ _ _ H Hscan e) Hin)
    as (k & s & Hf & Hsum).
  pose proof (scan_entry _ _ _ _ Hscan k) as He; rewrite Hf in He.
  destruct He as ((Hp & Hr & Hh & Hpod) & Hk & Hne).
  apply summarize_ok in Hsum as (h & Hh' & _ & _ & ->).
  rewrite Hh in Hh'; injection Hh' as <-; simpl.
  exists k; unfold tallies; simpl; rewrite length_map.
  repeat split; auto; lia.
Qed.

Lemma entry_exists (files : store) (r : overall) (k : pykey) :
  get_overall_scores files = Ok r -> occurrences k files <> [] ->
  exists e, In e (leaderboard r) /\ hash_key (model e) = Ok k.
Proof.
  intros H Hne.
  destruct (get_overall_scores_ok _ _ H) as (ms & tc & tr & board & Hscan & _).
  pose proof (scan_entry _ _ _ _ Hscan k) as He.
  destruct (find_scores k ms) as [s |] eqn:Hf; [| congruence].
  destruct He as (_ & Hk & _).
  destruct (scan_summarizes _ _ _ _ Hscan k s (find_scores_in _ _ _ Hf))
    as (e & Hsum).
  exists e; split.
  - apply (proj2 (leaderboard_entries _ _ _ _ _ H Hscan e)); eauto.
  - apply summarize_ok in Hsum as (h & _ & _ & _ & ->); exact Hk.
Qed.

Lemma entry_unique (files : store) (r : overall) (e e' : scores) (k : pykey) :
  get_overall_scores files = Ok r ->
  In e (leaderboard r) -> In e' (leaderboard r) ->
  hash_key (model e) = Ok k -> hash_key (model e') = Ok k -> e' = e.
Proof.
  intros H Hin Hin' Hk Hk'.
  destruct (get_overall_scores_ok _ _ H) as (ms & tc & tr & board & Hscan & _).
  destruct (proj1 (leaderboard_entries _ _ _ _ _ H Hscan e) Hin)
    as (k1 & s1 & Hf1 & Hs1).
  destruct (proj1 (leaderboard_entries _ _ _ _ _ H Hscan e') Hin')
    as (k2 & s2 & Hf2 & Hs2).
  pose proof (scan_entry _ _ _ _ Hscan k1) as He1; rewrite Hf1 in He1.
  pose proof (scan_entry _ _ _ _ Hscan k2) as He2; rewrite Hf2 in He2.
  destruct He1 as (_ & Hm1 & _), He2 as (_ & Hm2 & _).
  assert (model e = model s1)
    by (apply summarize_ok in Hs1 as (? & _ & _ & _ & ->); reflexivity).
  assert (model e' = model s2)
    by (apply summarize_ok in Hs2 as (? & _ & _ & _ & ->); reflexivity).
  assert (k1 = k2) by congruence; subst k2.
  congruence.
Qed.

Lemma awards_hashable (occs : list occurrence) :
  forall ms ms', foldM award_occ ms occs = Ok ms' ->
  forall o, In o occs -> exists k, hash_key (occ_label o) = Ok k.
Proof.
  induction occs as [| o0 occs IH]; intros ms ms' H o Hin; [destruct Hin |].
  simpl in H; apply bind_ok in H as (ms1 & Hstep & Hrest).
  destruct Hin as [<- | Hin]; [| eauto].
  destruct o0 as [n [p l]]; unfold award_occ, award in Hstep; simpl in Hstep.
  apply bind_ok in Hstep as (k & Hk & _); eauto.
Qed.

(** ** The examples, evaluated *)

Example one_judge_scores : get_overall_scores one_judge_store = Ok one_judge_result.
Proof. reflexivity. Qed.

Example long_ranking_scores :
  get_overall_scores long_ranking_store = Ok long_ranking_result.
Proof. reflexivity. Qed.

Example mixed_scores : get_overall_scores mixed_store = Ok mixed_result.
Proof. reflexivity. Qed.

(** ** The leaderboard *)

(** C1. Whenever [get_overall_scores] returns, every label [L] that occurs
    in a parsed_ranking (inside stage2 of an assistant message of a
    non-archived conversation) has exactly one entry in the leaderboard, the
    one under the dictionary key of [L]; its total_points is the sum over
    the occurrences of [L] of [len(stage2) - position], and its
    rankings_received is the number of these occurrences. *)
Theorem total_points_and_rankings_received
    (files : store) (r : overall) (L : json) :
  get_overall_scores files = Ok r ->
  (exists o, In o (ranked_labels files) /\ occ_label o = L) ->
  exists k e,
    hash_key L = Ok k
    /\ In e (leaderboard r)
    /\ hash_key (model e) = Ok k
    /\ (forall e', In e' (leaderboard r) -> hash_key (model e') = Ok k -> e' = e)
    /\ total_points e = sum (map occ_points (occurrences k files))
    /\ rankings_received e = Z.of_nat (List.length (occurrences k files)).
Proof.
  intros H (o & Hin & <-).
  destruct (get_overall_scores_ok _ _ H) as (ms & tc & tr & board & Hscan & _).
  destruct (scan_run _ _ _ _ Hscan) as (Hrun & _).
  destruct (awards_hashable _ _ _ Hrun o Hin) as (k & Hk).
  assert (Hne : occurrences k files <> []).
  { intros Hempty.
    assert (Ho : In o (occurrences k files))
      by (apply filter_In; split; [exact Hin | now apply has_key_occ]).
    rewrite Hempty in Ho; destruct Ho. }
  destruct (entry_exists _ _ _ H Hne) as (e & He & Hke).
  exists k, e; repeat split; auto.
  - intros e' He' Hke'; eapply entry_unique; eauto.
  - destruct (entry_facts _ _ _ H He) as (k' & Hk' & _ & (Hp & _) & _).
    assert (k' = k) by congruence; subst k'; exact Hp.
  - destruct (entry_facts _ _ _ H He) as (k' & Hk' & _ & (_ & Hr & _) & _).
    assert (k' = k) by congruence; subst k'; exact Hr.
Qed.

Lemma total_points_and_rankings_received_witness :
  exists k e,
    hash_key (JStr "m2") = Ok k
    /\ In e (leaderboard mixed_result)
    /\ hash_key (model e) = Ok k
    /\ (forall e', In e' (leaderboard mixed_result) ->
          hash_key (model e') = Ok k -> e' = e)
    /\ total_points e = sum (map occ_points (occurrences k mixed_store))
    /\ rankings_received e = Z.of_nat (List.length (occurrences k mixed_store)).
Proof.
  apply (total_points_and_rankings_received mixed_store mixed_result (JStr "m2")).
  - reflexivity.
  - exists (2, (1%nat, JStr "m2")); split; [right; left; reflexivity | reflexivity].
Defined.

Lemma combine_seq_nth {A : Type} (l : list A) :
  forall start p x,
    In (p, x) (combine (seq start (List.length l)) l) ->
    nth_error l (p - start) = Some x.
Proof.
  induction l as [| y l IH]; intros start p x H; simpl in H; [contradiction |].
  destruct H as [H | H].
  - injection H as <- <-; rewrite Nat.sub_diag; reflexivity.
  - assert (S start <= p)%nat.
    { apply in_combine_l, in_seq in H; lia. }
    apply IH in H.
    replace (p - start)%nat with (S (p - S start)) by lia; exact H.
Qed.

Lemma enumerate_nth {A : Type} (l : list A) (p : nat) (x : A) :
  In (p, x) (enumerate l) -> nth_error l p = Some x.
Proof.
  intros H; apply combine_seq_nth in H; rewrite Nat.sub_0_r in H; exact H.
Qed.

(** C2. The points of a ranked label are [len(stage2) - position] as they
    stand.  An award adds exactly [num_models - position] to the label's
    total_points, whatever its sign; an assistant message with a non-empty
    stage2 has every one of its ranking results processed with [num_models]
    the number of those ranking results, [len(stage2)]; and a ranking result
    with a non-empty parsed_ranking has every one of its labels awarded with
    that [num_models] and its 0-indexed position.  So in every result the
    total_points of an entry is the sum, over the occurrences of its label,
    of [len(stage2)] of the message minus the position.  With one judge
    ranking m1 and m2, m1 ends with 1 point, m2 with 0 and the leaderboard
    lists m1 before m2; with one judge ranking three labels the third ends
    with -1; with two judges, one ranking four labels, these end with 2, 1,
    0 and -1. *)
Theorem points_have_no_lower_bound :
  (forall num_models position ranked_label ms ms',
     award num_models ms (position, ranked_label) = Ok ms' ->
     exists k,
       hash_key ranked_label = Ok k
       /\ pts (find_scores k ms') =
          pts (find_scores k ms) + (num_models - Z.of_nat position))
  /\ (forall ms tc tr message stage2 ranking_results,
        py_get message "role" JNull = Ok (JStr "assistant") ->
        py_get message "stage2" (JArr []) = Ok stage2 ->
        truthy stage2 = true ->
        py_iter stage2 = Ok ranking_results ->
        py_len stage2 = Ok (Z.of_nat (List.length ranking_results))
        /\ process_message (ms, tc, tr) message =
           foldM (process_ranking (Z.of_nat (List.length ranking_results)))
             (ms, tc + 1, tr) ranking_results)
  /\ (forall num_models ms tc tr ranking_result parsed_ranking ranked,
        py_get ranking_result "parsed_ranking" (JArr []) = Ok parsed_ranking ->
        truthy parsed_ranking = true ->
        py_iter parsed_ranking = Ok ranked ->
        process_ranking num_models (ms, tc, tr) ranking_result =
        (ms' <- foldM (award num_models) ms (enumerate ranked) ;;
         Ok (ms', tc, tr + 1)))
  /\ (forall files r e,
        get_overall_scores files = Ok r -> In e (leaderboard r) ->
        exists k,
          hash_key (model e) = Ok k
          /\ total_points e = sum (map occ_points (occurrences k files))
          /\ forall o, In o (occurrences k files) ->
               exists message ranking_result,
                 In message (analyzed_messages files)
                 /\ In ranking_result (elements (stage2_of message))
                 /\ nth_error (elements (parsed_ranking_of ranking_result))
                      (fst (snd o)) = Some (occ_label o)
                 /\ occ_points o =
                    size (stage2_of message) - Z.of_nat (fst (snd o)))
  /\ get_overall_scores one_judge_store =
     Ok {| leaderboard := [entry "m1" 1 1 1 0 0 (float_div 1 1) (float_div 1 1);
                           entry "m2" 0 1 0 1 0 (float_div 2 1) (float_div 0 1)];
           total_conversations_analyzed := 1;
           total_rankings_processed := 1 |}
  /\ get_overall_scores long_ranking_store =
     Ok {| leaderboard := [entry "m1" 1 1 1 0 0 (float_div 1 1) (float_div 1 1);
                           entry "m2" 0 1 0 1 0 (float_div 2 1) (float_div 0 1);
                           entry "m3" (-1) 1 0 0 1 (float_div 3 1) (float_div (-1) 1)];
           total_conversations_analyzed := 1;
           total_rankings_processed := 1 |}
  /\ get_overall_scores two_judge_store =
     Ok {| leaderboard := [entry "m1" 2 1 1 0 0 (float_div 1 1) (float_div 2 1);
                           entry "m2" 1 1 0 1 0 (float_div 2 1) (float_div 1 1);
                           entry "m3" 0 1 0 0 1 (float_div 3 1) (float_div 0 1);
                           entry "m4" (-1) 1 0 0 0 (float_div 4 1)
                             (float_div (-1) 1)];
           total_conversations_analyzed := 1;
           total_rankings_processed := 1 |}.
Proof.
  split; [| split; [| split; [| split; [| repeat split; reflexivity]]]].
  - intros n p l ms ms' H.
    pose proof (award_find ms ms' (n, (p, l)) H) as Hfind.
    unfold award in H; apply bind_ok in H as (k & Hk & _).
    exists k; split; [exact Hk |].
    specialize (Hfind k); unfold has_key, occ_label in Hfind; simpl in Hfind.
    rewrite Hk, pykey_eqb_refl in Hfind.
    destruct Hfind as (s' & -> & Hp & _); exact Hp.
  - intros ms tc tr message stage2 rrs Hrole Hst Ht Hit.
    assert (Hlen : py_len stage2 = Ok (Z.of_nat (List.length rrs))).
    { destruct stage2; simpl in Hit |- *; try discriminate;
        injection Hit as <-; f_equal; f_equal.
      - unfold chars; rewrite length_map.
        clear; induction s as [| c s IH]; simpl; congruence.
      - now rewrite length_map. }
    split; [exact Hlen |].
    unfold process_message; rewrite Hrole; simpl.
    rewrite Hst; simpl; rewrite Ht; simpl.
    rewrite Hlen, Hit; reflexivity.
  - intros n ms tc tr rr pr ranked Hpr Ht Hit.
    unfold process_ranking.
    destruct rr; simpl in Hpr; try discriminate.
    simpl; injection Hpr as ->.
    rewrite Ht; simpl; rewrite Hit; reflexivity.
  - intros files r e H Hin.
    destruct (entry_facts _ _ _ H Hin) as (k & Hk & Hne & Ht & _).
    exists k; split; [exact Hk |].
    split; [apply Ht |].
    intros o Ho.
    apply filter_In in Ho as (Ho & _).
    unfold ranked_labels in Ho; apply in_flat_map in Ho as (rk & Hrk & Ho).
    unfold processed_rankings in Hrk; apply in_flat_map in Hrk as (m & Hm & Hrk).
    unfold rankings_of in Hrk; apply in_map_iff in Hrk as (rr & <- & Hrr).
    apply filter_In in Hrr as (Hrr & _).
    unfold labels_of in Ho; apply in_map_iff in Ho as (item & <- & Hitem).
    exists m, rr; repeat split; auto.
    simpl. unfold occ_label; simpl.
    destruct item as (p, l); simpl.
    apply enumerate_nth; exact Hitem.
Qed.

Lemma points_have_no_lower_bound_witness :
  exists k,
    hash_key (JStr "m3") = Ok k
    /\ pts (find_scores k
              [(KStr "m3",
                {| model := JStr "m3"; total_points := -1;
                   rankings_received := 1; first_places := 0;
                   second_places := 0; third_places := 1;
                   position_history := Some [3];
                   average_position := None; average_points := None |})]) =
       pts (find_scores k []) + (1 - Z.of_nat 2).
Proof.
  apply (proj1 points_have_no_lower_bound 1 2%nat (JStr "m3") []).
  reflexivity.
Defined.

(** C3. Whenever [get_overall_scores] returns, total_conversations_analyzed
    is the number of assistant messages with a non-empty stage2 in the
    non-archived conversations (one per message, none for a message whose
    stage2 is empty), and total_rankings_processed is the number of ranking
    results with a non-empty parsed_ranking in these messages. *)
Theorem counters_count_messages_and_rankings (files : store) (r : overall) :
  get_overall_scores files = Ok r ->
  total_conversations_analyzed r = Z.of_nat (List.length (analyzed_messages files))
  /\ total_rankings_processed r = Z.of_nat (List.length (processed_rankings files)).
Proof.
  intros H.
  apply get_overall_scores_ok in H as (ms & tc & tr & board & Hscan & _ & ->).
  apply scan_run in Hscan as (_ & -> & ->); split; reflexivity.
Qed.

Lemma counters_count_messages_and_rankings_witness :
  total_conversations_analyzed mixed_result
    = Z.of_nat (List.length (analyzed_messages mixed_store))
  /\ total_rankings_processed mixed_result
    = Z.of_nat (List.length (processed_rankings mixed_store)).
Proof.
  apply (counters_count_messages_and_rankings mixed_store mixed_result).
  reflexivity.
Defined.

(** C5. Whenever [get_overall_scores] returns, of two adjacent entries of
    the leaderboard the earlier one has at least the total_points of the
    later one. *)
Theorem leaderboard_sorted_by_total_points (files : store) (r : overall) :
  get_overall_scores files = Ok r ->
  forall i a b,
    nth_error (leaderboard r) i = Some a ->
    nth_error (leaderboard r) (S i) = Some b ->
    total_points a >= total_points b.
Proof.
  intros H.
  apply get_overall_scores_ok in H as (ms & tc & tr & board & _ & _ & ->).
  apply sorted_adjacent, sort_desc_sorted.
Qed.

Lemma leaderboard_sorted_by_total_points_witness :
  total_points (entry "m2" 5 3 2 1 0 (float_div 4 3) (float_div 5 3))
  >= total_points (entry "m1" 4 3 1 2 0 (float_div 5 3) (float_div 4 3)).
Proof.
  apply (leaderboard_sorted_by_total_points mixed_store mixed_result eq_refl 0%nat);
    reflexivity.
Defined.



(** C6, as the claim has it: the average is not the quotient itself.  In
    the mixed store the label m2 gets 5 points in 3 rankings, and its
    average_points is the double 7505999378950827 / 2^52, printed
    1.6666666666666667; three times that number is not 5.  The label m1
    was ranked at the places 1, 2 and 2, and its average_position is the
    same double, not 5/3. *)
Lemma average_is_a_rounded_quotient :
  get_overall_scores mixed_store = Ok mixed_result
  /\ exists m2 m1 x,
       leaderboard mixed_result = [m2; m1]
       /\ total_points m2 = 5 /\ rankings_received m2 = 3
       /\ average_points m2 = Some x
       /\ map occ_place (occurrences (KStr "m1") mixed_store) = [1; 2; 2]
       /\ average_position m1 = Some x
       /\ x = S754_finite false 7505999378950827 (-52)
       /\ float_value x = Some (7505999378950827 # 4503599627370496)%Q
       /\ ~ ((7505999378950827 # 4503599627370496) * 3 == 5)%Q
       /\ ~ ((7505999378950827 # 4503599627370496) == 5 # 3)%Q.
Proof.
  split; [vm_compute; reflexivity |].
  eexists _, _, _; split; [reflexivity |].
  repeat split; try (vm_compute; reflexivity);
    intros H; vm_compute in H; discriminate.
Qed.

(** C10. When the scan is over, every entry of [model_scores] has
    rankings_received >= 1 and a non-empty position history, as long as
    rankings_received; so the two divisions go through and
    [get_overall_scores] returns; and every entry of the leaderboard has
    rankings_received >= 1 and first_places + second_places + third_places
    <= rankings_received. *)
Theorem averages_never_divide_by_zero
    (files : store) (ms : model_scores_t) (tc tr : Z) :
  scan files = Ok (ms, tc, tr) ->
  (forall k s, In (k, s) ms ->
     rankings_received s >= 1
     /\ exists h, position_history s = Some h /\ h <> []
                  /\ Z.of_nat (List.length h) = rankings_received s)
  /\ exists r,
       get_overall_scores files = Ok r
       /\ forall e, In e (leaderboard r) ->
            rankings_received e >= 1
            /\ first_places e + second_places e + third_places e
               <= rankings_received e.
Proof.
  intros Hscan; split.
  - intros k s Hin.
    pose proof (scan_keyed _ _ _ _ Hscan) as [Hnd _].
    pose proof (scan_entry _ _ _ _ Hscan k) as He.
    rewrite (in_find_scores _ _ _ Hnd Hin) in He.
    destruct He as (Ht & _ & Hne).
    split; [eapply tallies_received; eauto |].
    destruct Ht as (_ & Hr & Hh & _).
    exists (map occ_place (occurrences k files)); repeat split; auto.
    + destruct (occurrences k files); [congruence | discriminate].
    + rewrite length_map; auto.
  - destruct (scan_returns _ _ Hscan) as (r & Hr).
    exists r; split; [exact Hr |].
    intros e Hin.
    destruct (entry_facts _ _ _ Hr Hin) as (k & _ & Hne & Ht & _).
    pose proof (tallies_received _ _ Ht Hne) as Hrcv.
    destruct Ht as (_ & Hlen & _ & Hpod); simpl in *; lia.
Qed.

Lemma averages_never_divide_by_zero_witness :
  (forall k s,
     In (k, s)
       [(KStr "m1",
         {| model := JStr "m1"; total_points := 1; rankings_received := 1;
            first_places := 1; second_places := 0; third_places := 0;
            position_history := Some [1];
            average_position := None; average_points := None |});
        (KStr "m2",
         {| model := JStr "m2"; total_points := 0; rankings_received := 1;
            first_places := 0; second_places := 1; third_places := 0;
            position_history := Some [2];
            average_position := None; average_points := None |})] ->
     rankings_received s >= 1
     /\ exists h, position_history s = Some h /\ h <> []
                  /\ Z.of_nat (List.length h) = rankings_received s)
  /\ exists r,
       get_overall_scores one_judge_store = Ok r
       /\ forall e, In e (leaderboard r) ->
            rankings_received e >= 1
            /\ first_places e + second_places e + third_places e
               <= rankings_received e.
Proof.
  apply (averages_never_divide_by_zero one_judge_store _ 1 1); reflexivity.
Defined.

(** ** Archived conversations *)

Lemma lookup_dict_set (k : string) (v : json) (members : list (string * json)) :
  lookup k (dict_set k v members) = Some v.
Proof.
  induction members as [| [k' w] members IH]; simpl.
  - rewrite String.eqb_refl; reflexivity.
  - destruct (String.eqb k k') eqn:E; simpl; rewrite E; auto.
Qed.

Lemma process_file_archived (st : scan_state) (name : string) (data : json) :
  is_archived data = true -> process_file st (name, data) = Ok st.
Proof.
  unfold is_archived, field, process_file; intros H.
  destruct (endswith name ".json"); simpl; [| reflexivity].
  destruct (py_get data "archived" (JBool false)); simpl in *;
    [rewrite H; reflexivity | discriminate].
Qed.

Lemma scan_skips_archived (files : store) :
  forall st,
    foldM process_file st files =
    foldM process_file st (filter (fun f => negb (is_archived (snd f))) files).
Proof.
  induction files as [| [name data] files IH]; intros st; [reflexivity |].
  cbn [foldM filter snd].
  destruct (is_archived data) eqn:E; cbn [negb foldM].
  - rewrite (process_file_archived _ _ _ E); simpl; apply IH.
  - destruct (process_file st (name, data)); simpl; auto.
Qed.

(** C4. [get_overall_scores] gives on a store what it gives on the store
    without its archived conversations; and a store in which a conversation
    has been given [archived = True] gives what the store without that
    conversation gives. *)
Theorem archived_conversations_contribute_nothing :
  (forall files,
     get_overall_scores files =
     get_overall_scores (filter (fun f => negb (is_archived (snd f))) files))
  /\ (forall files1 files2 name conversation archived_conversation,
        py_setitem conversation "archived" (JBool true) = Ok archived_conversation ->
        get_overall_scores
          (files1 ++ (name, archived_conversation) :: files2)%list =
        get_overall_scores (files1 ++ files2)%list).
Proof.
  assert (Hfilter : forall files,
            get_overall_scores files =
            get_overall_scores
              (filter (fun f => negb (is_archived (snd f))) files)).
  { intros files; unfold get_overall_scores, scan.
    rewrite scan_skips_archived; reflexivity. }
  split; [exact Hfilter |].
  intros files1 files2 name conversation archived_conversation Hset.
  rewrite Hfilter, (Hfilter (files1 ++ files2)%list), !filter_app.
  cbn [filter snd].
  destruct conversation; try discriminate.
  injection Hset as <-.
  unfold is_archived at 2, field; simpl.
  rewrite lookup_dict_set; reflexivity.
Qed.

Lemma archived_conversations_contribute_nothing_witness :
  get_overall_scores
    ([("c3.json", conversation_of "c3" [])]
     ++ ("c4.json",
         JObj [("id", JStr "c4");
               ("messages",
                JArr [assistant (JArr [judge "judgeA" ["m9"; "m1"]])]);
               ("archived", JBool true)])
        :: [("c1.json",
             conversation_of "c1"
               [assistant (JArr [judge "judgeA" ["m1"; "m2"]])])])%list =
  get_overall_scores
    ([("c3.json", conversation_of "c3" [])]
     ++ [("c1.json",
          conversation_of "c1"
            [assistant (JArr [judge "judgeA" ["m1"; "m2"]])])])%list.
Proof.
  apply (proj2 archived_conversations_contribute_nothing _ _ _
           (JObj [("id", JStr "c4");
                  ("messages",
                   JArr [assistant (JArr [judge "judgeA" ["m9"; "m1"]])])])).
  reflexivity.
Defined.

(** ** Stores on which the scan returns *)

Lemma foldM_total {A S : Type} (P : S -> Prop) (Q : A -> Prop)
    (body : S -> A -> result S) (l : list A) :
  (forall s x, P s -> Q x -> exists s', body s x = Ok s' /\ P s') ->
  forall s, P s -> Forall Q l -> exists s', foldM body s l = Ok s' /\ P s'.
Proof.
  intros Hstep; induction l as [| x l IH]; intros s Hs Hl; simpl; [eauto |].
  inversion Hl as [| ? ? Hx Hl']; subst.
  destruct (Hstep s x Hs Hx) as (s1 & -> & Hs1); simpl; auto.
Qed.

Lemma foldM_accepts {A S : Type} (Q : A -> Prop) (body : S -> A -> result S)
    (l : list A) :
  (forall s x s', body s x = Ok s' -> Q x) ->
  forall s s', foldM body s l = Ok s' -> Forall Q l.
Proof.
  intros Hstep; induction l as [| x l IH]; intros s s' H; simpl in H;
    [constructor |].
  apply bind_ok in H as (s1 & H1 & H2); constructor; eauto.
Qed.

Lemma snd_enumerate {A : Type} (l : list A) : map snd (enumerate l) = l.
Proof.
  unfold enumerate; generalize 0%nat.
  induction l as [| x l IH]; intros start; simpl; [| rewrite IH]; reflexivity.
Qed.

Lemma forallb_enumerate {A : Type} (f : A -> bool) (l : list A) :
  forallb f l = true <-> Forall (fun item => f (snd item) = true) (enumerate l).
Proof.
  rewrite forallb_forall, Forall_forall; split.
  - intros H item Hin; apply H.
    rewrite <- (snd_enumerate l); apply in_map, Hin.
  - intros H x Hin; rewrite <- (snd_enumerate l) in Hin.
    apply in_map_iff in Hin as (item & <- & Hin); auto.
Qed.

Lemma forallb_all {A : Type} (f : A -> bool) (l : list A) :
  forallb f l = true <-> Forall (fun x => f x = true) l.
Proof. rewrite forallb_forall, Forall_forall; reflexivity. Qed.

Lemma award_step_total (n : Z) (ms : model_scores_t) (item : nat * json) :
  keyed ms -> hashable (snd item) = true ->
  exists ms', award n ms item = Ok ms' /\ keyed ms'.
Proof.
  intros Hk Hh; unfold hashable in Hh.
  destruct (hash_key (snd item)) as [k |] eqn:E; [| discriminate].
  destruct (award_total ms (n, item) k Hk E) as (ms' & Hms').
  exists ms'; split; [exact Hms' | eapply award_keyed; eauto].
Qed.

Lemma process_ranking_total (n : Z) (st : scan_state) (rr : json) :
  keyed_state st -> shaped_ranking rr = true ->
  exists st', process_ranking n st rr = Ok st' /\ keyed_state st'.
Proof.
  destruct st as [[ms tc] tr]; unfold keyed_state, shaped_ranking; simpl.
  intros Hk H; apply andb_prop in H as [Hd H].
  destruct rr; try discriminate.
  unfold has_ranking, parsed_ranking_of, field, process_ranking in *; simpl in *.
  destruct (truthy _); simpl in *; [| eauto].
  apply andb_prop in H as [Hi Hl]; unfold iterable, elements in *.
  destruct (py_iter _) as [ranked |]; [simpl | discriminate].
  apply forallb_enumerate in Hl.
  destruct (foldM_total keyed _ (award n) _ (award_step_total n) ms Hk Hl)
    as (ms' & -> & Hk'); simpl; eauto.
Qed.

Lemma process_message_total (st : scan_state) (m : json) :
  keyed_state st -> shaped_message m = true ->
  exists st', process_message st m = Ok st' /\ keyed_state st'.
Proof.
  destruct st as [[ms tc] tr]; unfold shaped_message.
  intros Hk H; apply andb_prop in H as [Hd H].
  destruct m; try discriminate.
  unfold is_analyzed, stage2_of, field, process_message in *; simpl in *.
  destruct (is_str _ "assistant"); simpl in *; [| eauto].
  destruct (truthy _); simpl in *; [| eauto].
  apply andb_prop in H as [Hi Hl]; unfold iterable, elements in *.
  destruct (match lookup "stage2" members with Some w => w | None => JArr [] end)
    as [| | | s | items | members']; try discriminate; simpl in *;
    apply forallb_all in Hl;
    apply (foldM_total keyed_state _ _ _ (process_ranking_total _)); auto.
Qed.

Lemma process_file_total (st : scan_state) (f : string * json) :
  keyed_state st -> shaped_file f = true ->
  exists st', process_file st f = Ok st' /\ keyed_state st'.
Proof.
  destruct f as [name data]; unfold shaped_file, process_file; simpl.
  intros Hk H.
  destruct (endswith name ".json"); simpl in *; [| eauto].
  apply andb_prop in H as [Hd H].
  destruct data; try discriminate.
  unfold is_archived, messages_of, field in *; simpl in *.
  destruct (truthy _); simpl in *; [eauto |].
  apply andb_prop in H as [Hi Hl]; unfold iterable, elements in *.
  destruct (py_iter _) as [msgs |]; [simpl | discriminate].
  apply forallb_all in Hl.
  apply (foldM_total keyed_state _ _ _ process_message_total); auto.
Qed.

Lemma well_shaped_returns (files : store) :
  well_shaped files = true -> exists r, get_overall_scores files = Ok r.
Proof.
  intros H; apply forallb_all in H.
  destruct (foldM_total keyed_state _ _ _ process_file_total ([], 0, 0)
              keyed_nil H) as (st & Hst & _).
  eapply scan_returns; exact Hst.
Qed.

Lemma award_accepts (n : Z) (ms ms' : model_scores_t) (item : nat * json) :
  award n ms item = Ok ms' -> hashable (snd item) = true.
Proof.
  destruct item as [p l]; unfold award, hashable; simpl; intros H.
  apply bind_ok in H as (k & -> & _); reflexivity.
Qed.

Lemma py_get_dict (v : json) (k : string) (d w : json) :
  py_get v k d = Ok w -> is_dict v = true.
Proof. destruct v; simpl; intros H; try discriminate; reflexivity. Qed.

Lemma process_ranking_accepts (n : Z) (st st' : scan_state) (rr : json) :
  process_ranking n st rr = Ok st' -> shaped_ranking rr = true.
Proof.
  destruct st as [[ms tc] tr]; unfold process_ranking, shaped_ranking; intros H.
  step_ok H. step_ok H.
  rewrite (py_get_dict _ _ _ _ H1); apply py_get_field in H1.
  unfold has_ranking, parsed_ranking_of; rewrite H1.
  destruct (truthy x0); simpl in *; [| reflexivity].
  step_ok H. step_ok H.
  unfold iterable, elements; rewrite H2; simpl.
  apply forallb_enumerate.
  eapply foldM_accepts; [| exact H3].
  intros s item s'; apply award_accepts.
Qed.

Lemma process_message_accepts (st st' : scan_state) (m : json) :
  process_message st m = Ok st' -> shaped_message m = true.
Proof.
  destruct st as [[ms tc] tr]; unfold process_message, shaped_message; intros H.
  step_ok H.
  rewrite (py_get_dict _ _ _ _ H0); apply py_get_field in H0.
  unfold is_analyzed, stage2_of; rewrite H0.
  destruct (is_str x "assistant"); simpl in *; [| reflexivity].
  step_ok H. apply py_get_field in H1; rewrite H1.
  destruct (truthy x0); simpl in *; [| reflexivity].
  step_ok H. step_ok H.
  unfold iterable, elements; rewrite H3; simpl.
  apply forallb_all.
  eapply foldM_accepts; [| exact H].
  intros s rr s'; apply process_ranking_accepts.
Qed.

Lemma process_file_accepts (st st' : scan_state) (f : string * json) :
  process_file st f = Ok st' -> shaped_file f = true.
Proof.
  destruct f as [name data]; unfold process_file, shaped_file; simpl; intros H.
  destruct (endswith name ".json"); simpl in *; [| reflexivity].
  step_ok H.
  rewrite (py_get_dict _ _ _ _ H0); apply py_get_field in H0.
  unfold is_archived, messages_of; rewrite H0.
  destruct (truthy x); simpl in *; [reflexivity |].
  step_ok H. step_ok H. apply py_get_field in H1; rewrite H1.
  unfold iterable, elements; rewrite H2; simpl.
  apply forallb_all.
  eapply foldM_accepts; [| exact H].
  intros s m s'; apply process_message_accepts.
Qed.

Lemma returns_well_shaped (files : store) (r : overall) :
  get_overall_scores files = Ok r -> well_shaped files = true.
Proof.
  intros H.
  apply get_overall_scores_ok in H as (ms & tc & tr & board & Hscan & _).
  apply forallb_all.
  eapply foldM_accepts; [| exact Hscan].
  intros s f s'; apply process_file_accepts.
Qed.

(** C7, as the code has it.  [get_overall_scores] returns a result exactly
    on the stores in which every file, message and ranking result it looks
    at is a dict, every messages and every non-empty stage2 and
    parsed_ranking is a sequence, and every ranked label can be a dict key.
    A message whose stage2 is missing or empty and a ranking result whose
    parsed_ranking is missing or empty are skipped: the scan goes on with
    the counters and entries it had. *)
Theorem returns_on_well_shaped_stores :
  (forall files,
     well_shaped files = true <-> exists r, get_overall_scores files = Ok r)
  /\ (forall st members,
        lookup "stage2" members = None
        \/ (exists v, lookup "stage2" members = Some v /\ truthy v = false) ->
        process_message st (JObj members) = Ok st)
  /\ (forall num_models st members,
        lookup "parsed_ranking" members = None
        \/ (exists v, lookup "parsed_ranking" members = Some v
                      /\ truthy v = false) ->
        process_ranking num_models st (JObj members) = Ok st).
Proof.
  split; [| split].
  - intros files; split; [apply well_shaped_returns |].
    intros (r & Hr); eapply returns_well_shaped; eauto.
  - intros [[ms tc] tr] members H; unfold process_message; simpl.
    destruct (is_str _ "assistant"); simpl; [| reflexivity].
    destruct H as [-> | (v & -> & ->)]; reflexivity.
  - intros n [[ms tc] tr] members H; unfold process_ranking; simpl.
    destruct H as [-> | (v & -> & ->)]; reflexivity.
Qed.

Lemma returns_on_well_shaped_stores_witness :
  (exists r, get_overall_scores mixed_store = Ok r)
  /\ process_message ([], 0, 0)
       (JObj [("role", JStr "assistant"); ("stage2", JArr [])]) = Ok ([], 0, 0)
  /\ process_ranking 2 ([], 0, 0) (JObj [("model", JStr "judgeB")])
     = Ok ([], 0, 0).
Proof.
  split; [| split].
  - apply (proj1 (proj1 returns_on_well_shaped_stores mixed_store)).
    reflexivity.
  - apply (proj1 (proj2 returns_on_well_shaped_stores)).
    right; exists (JArr []); split; reflexivity.
  - apply (proj2 (proj2 returns_on_well_shaped_stores)).
    left; reflexivity.
Defined.

(** C7 as stated fails: a ranking result whose parsed_ranking is a number
    makes [get_overall_scores] raise. *)
Lemma raises_on_number_ranking :
  get_overall_scores number_ranking_store = Raise TypeError
  /\ ~ (exists r, get_overall_scores number_ranking_store = Ok r).
Proof.
  split; [reflexivity |].
  intros (r & H); discriminate.
Qed.

(** ** The store operations *)






(** ** More on the store operations *)

Lemma lookup_dict_set_other (k k' : string) (v : json)
    (members : list (string * json)) :
  k <> k' -> lookup k (dict_set k' v members) = lookup k members.
Proof.
  intros Hne; induction members as [| [k0 w] members IH]; simpl.
  - destruct (String.eqb_spec k k'); [contradiction | reflexivity].
  - destruct (String.eqb_spec k' k0); simpl.
    + subst k0; destruct (String.eqb_spec k k'); [contradiction | reflexivity].
    + destruct (String.eqb k k0); [reflexivity | exact IH].
Qed.

Lemma py_setitem_get (c c' : json) (k : string) (v : json) :
  py_setitem c k v = Ok c' ->
  py_getitem c' k = Ok v
  /\ forall k', k' <> k -> py_getitem c' k' = py_getitem c k'.
Proof.
  destruct c; simpl; intros H; try discriminate.
  injection H as <-; simpl; split.
  - rewrite lookup_dict_set; reflexivity.
  - intros k' Hne; rewrite lookup_dict_set_other; auto.
Qed.

Lemma append_message_ok (c message c' : json) :
  append_message c message = Ok c' ->
  exists messages,
    py_getitem c "messages" = Ok (JArr messages)
    /\ py_getitem c' "messages" = Ok (JArr (messages ++ [message])%list)
    /\ forall k, k <> "messages" -> py_getitem c' k = py_getitem c k.
Proof.
  unfold append_message; intros H.
  apply bind_ok in H as (ms & Hms & H).
  apply bind_ok in H as (ms' & Happ & H).
  destruct ms; try discriminate; injection Happ as <-.
  apply py_setitem_get in H as [H1 H2]; eauto.
Qed.

Lemma save_conversation_ok (format : json -> string) (c : json)
    (files files' : store) :
  save_conversation format c files = (Ok tt, files') ->
  exists id,
    py_getitem c "id" = Ok id
    /\ files' = write_file (get_conversation_path format id) c files
    /\ get_conversation format id files' = (Ok c, files').
Proof.
  unfold save_conversation, get_conversation, read_file, write_file.
  destruct (py_getitem c "id") as [id |]; intros H; [| discriminate].
  injection H as <-; exists id; rewrite lookup_dict_set; auto.
Qed.

(** What an operation that first loads the conversation does when it
    returns. *)
Lemma loaded_then_saved (format : json -> string) (conversation_id : json)
    (change : json -> result json) (files files' : store) :
  (conversation <~ get_conversation format conversation_id ;;
   if is_none conversation then io_raise (not_found format conversation_id)
   else conversation' <~ io_lift (change conversation) ;;
        save_conversation format conversation') files = (Ok tt, files') ->
  exists conversation conversation',
    read_file (get_conversation_path format conversation_id) files
      = Some conversation
    /\ change conversation = Ok conversation'
    /\ save_conversation format conversation' files = (Ok tt, files').
Proof.
  unfold io_bind, get_conversation, io_raise, io_lift.
  destruct (read_file _ files) as [c |]; simpl; [| discriminate].
  destruct (is_none c); [discriminate |].
  destruct (change c) as [c' |] eqn:Hc; [| discriminate].
  simpl; intros H; exists c, c'; auto.
Qed.

(** X1. [add_user_message] and [add_assistant_message], when they return,
    have appended their message dict at the end of the messages of the
    conversation found under the id, changed no other key of it, and saved
    it under the id the conversation itself carries. *)
Theorem add_message_appends
    (format : json -> string) (conversation_id : json) (files files' : store) :
  (forall content,
     add_user_message format conversation_id content files = (Ok tt, files') ->
     appended format conversation_id
       (JObj [("role", JStr "user"); ("content", content)]) files files')
  /\ (forall stage1 stage2 stage3,
        add_assistant_message format conversation_id stage1 stage2 stage3 files
          = (Ok tt, files') ->
        appended format conversation_id
          (JObj [("role", JStr "assistant"); ("stage1", stage1);
                 ("stage2", stage2); ("stage3", stage3)]) files files').
Proof.
  split; intros; unfold appended;
    match goal with H : _ = (Ok tt, files') |- _ =>
      apply loaded_then_saved in H as (c & c' & Hread & Hchange & Hsave)
    end;
    apply append_message_ok in Hchange as (messages & Hm & Hm' & Hother);
    apply save_conversation_ok in Hsave as (id & Hid & Hfiles & Hget);
    exists c, id, messages, c'; repeat split; auto;
    rewrite <- Hid; symmetry; apply Hother; discriminate.
Qed.

Lemma add_message_appends_witness :
  appended format_str (JStr "c1")
    (JObj [("role", JStr "user"); ("content", JStr "hello")])
    one_judge_store
    [("c1.json",
      conversation_of "c1"
        [assistant (JArr [judge "judgeA" ["m1"; "m2"]]);
         JObj [("role", JStr "user"); ("content", JStr "hello")]])].
Proof.
  apply (proj1 (add_message_appends format_str (JStr "c1") one_judge_store _)).
  reflexivity.
Defined.

(** X2. [update_conversation_title] and [archive_conversation], when they
    return, have set the title, or the archived flag, of the conversation
    found under the id, changed no other key of it, and saved it under the
    id the conversation itself carries. *)
Theorem title_and_archived_are_set
    (format : json -> string) (conversation_id : json) (files files' : store) :
  (forall title,
     update_conversation_title format conversation_id title files
       = (Ok tt, files') ->
     field_set format conversation_id "title" title files files')
  /\ (forall archived,
        archive_conversation format conversation_id archived files
          = (Ok tt, files') ->
        field_set format conversation_id "archived" (JBool archived)
          files files').
Proof.
  split; intros; unfold field_set;
    match goal with H : _ = (Ok tt, files') |- _ =>
      apply loaded_then_saved in H as (c & c' & Hread & Hchange & Hsave)
    end;
    apply py_setitem_get in Hchange as [Hset Hother];
    apply save_conversation_ok in Hsave as (id & Hid & Hfiles & Hget);
    exists c, id, c'; repeat split; auto;
    rewrite <- Hid; symmetry; apply Hother; discriminate.
Qed.

Lemma title_and_archived_are_set_witness :
  field_set format_str (JStr "c1") "archived" (JBool true)
    one_judge_store
    [("c1.json",
      JObj [("id", JStr "c1"); ("created_at", JStr "2025-01-01T00:00:00");
            ("title", JStr "New Conversation");
            ("messages",
             JArr [assistant (JArr [judge "judgeA" ["m1"; "m2"]])]);
            ("archived", JBool true)])].
Proof.
  apply (proj2 (title_and_archived_are_set format_str (JStr "c1")
                  one_judge_store _)).
  reflexivity.
Defined.













(** ** The store operations and the scores *)

Lemma foldM_write_file {S : Type} (body : S -> string * json -> result S)
    (path : string) (c c' : json) (files : store) :
  read_file path files = Some c ->
  (forall s name, body s (name, c') = body s (name, c)) ->
  forall s, foldM body s (write_file path c' files) = foldM body s files.
Proof.
  unfold read_file, write_file; intros Hread Hsame.
  induction files as [| [name doc] files IH]; intros s; simpl in *;
    [discriminate |].
  destruct (String.eqb path name).
  - injection Hread as ->; simpl; rewrite Hsame; reflexivity.
  - simpl; destruct (body s (name, doc)); simpl; auto.
Qed.

Lemma bind_ret {A : Type} (c : result A) : (x <- c ;; Ok x) = c.
Proof. destruct c; reflexivity. Qed.

Lemma append_message_members (c message c' : json) :
  append_message c message = Ok c' ->
  exists members messages,
    c = JObj members
    /\ lookup "messages" members = Some (JArr messages)
    /\ c' = JObj (dict_set "messages" (JArr (messages ++ [message])%list) members).
Proof.
  unfold append_message; intros H.
  apply bind_ok in H as (ms & Hms & H).
  apply bind_ok in H as (ms' & Happ & H).
  destruct c as [| | | | | members]; try discriminate; simpl in Hms, H.
  destruct (lookup "messages" members) as [v |] eqn:Hl; [| discriminate].
  injection Hms as ->.
  destruct ms; try discriminate; injection Happ as <-; injection H as <-.
  eauto.
Qed.

Lemma process_file_user_message (st : scan_state) (name : string)
    (c content c' : json) :
  append_message c (JObj [("role", JStr "user"); ("content", content)]) = Ok c' ->
  process_file st (name, c') = process_file st (name, c).
Proof.
  intros H; apply append_message_members in H as (m & msgs & -> & Hl & ->).
  unfold process_file; destruct (endswith name ".json"); simpl; [| reflexivity].
  rewrite lookup_dict_set_other by discriminate.
  destruct (truthy _); simpl; [reflexivity |].
  rewrite lookup_dict_set, Hl; simpl.
  rewrite foldM_app.
  destruct (foldM process_message st msgs) as [[[ms tc] tr] |]; reflexivity.
Qed.

Lemma process_file_title (st : scan_state) (name : string) (c title c' : json) :
  py_setitem c "title" title = Ok c' ->
  process_file st (name, c') = process_file st (name, c).
Proof.
  destruct c as [| | | | | m]; simpl; intros H; try discriminate.
  injection H as <-.
  unfold process_file; destruct (endswith name ".json"); simpl; [| reflexivity].
  rewrite !lookup_dict_set_other by discriminate; reflexivity.
Qed.

Lemma saved_in_place (format : json -> string) (conversation_id c c' : json)
    (files files' : store) :
  stored_under_own_id format conversation_id files ->
  read_file (get_conversation_path format conversation_id) files = Some c ->
  (forall id, py_getitem c' "id" = Ok id -> py_getitem c "id" = Ok id) ->
  save_conversation format c' files = (Ok tt, files') ->
  files' = write_file (get_conversation_path format conversation_id) c' files.
Proof.
  intros Hown Hread Hid Hsave.
  apply save_conversation_ok in Hsave as (id & Hid' & -> & _).
  unfold get_conversation_path; rewrite (Hown c id Hread (Hid id Hid'));
    reflexivity.
Qed.

(** X7. A user message and a title do not count: when the conversation is
    stored under its own id, the store that [add_user_message] or
    [update_conversation_title] leaves gives the overall scores, or the
    exception, that the store gave before. *)
Theorem scores_ignore_user_messages_and_titles
    (format : json -> string) (conversation_id : json) (files files' : store) :
  stored_under_own_id format conversation_id files ->
  (forall content,
     add_user_message format conversation_id content files = (Ok tt, files') ->
     get_overall_scores files' = get_overall_scores files)
  /\ (forall title,
        update_conversation_title format conversation_id title files
          = (Ok tt, files') ->
        get_overall_scores files' = get_overall_scores files).
Proof.
  intros Hown; split; intros x H;
    apply loaded_then_saved in H as (c & c' & Hread & Hchange & Hsave).
  - assert (Hid : forall id, py_getitem c' "id" = Ok id -> py_getitem c "id" = Ok id).
    { apply append_message_ok in Hchange as (? & _ & _ & Hother).
      intros id; rewrite Hother by discriminate; auto. }
    rewrite (saved_in_place _ _ _ _ _ _ Hown Hread Hid Hsave).
    unfold get_overall_scores, scan.
    rewrite (foldM_write_file process_file _ c c' files Hread); [reflexivity |].
    intros s name; eapply process_file_user_message; eauto.
  - assert (Hid : forall id, py_getitem c' "id" = Ok id -> py_getitem c "id" = Ok id).
    { apply py_setitem_get in Hchange as [_ Hother].
      intros id; rewrite Hother by discriminate; auto. }
    rewrite (saved_in_place _ _ _ _ _ _ Hown Hread Hid Hsave).
    unfold get_overall_scores, scan.
    rewrite (foldM_write_file process_file _ c c' files Hread); [reflexivity |].
    intros s name; eapply process_file_title; eauto.
Qed.

Lemma stored_under_own_id_c3 : stored_under_own_id format_str (JStr "c3") mixed_store.
Proof.
  intros c id Hread Hid; injection Hread as <-; injection Hid as <-; reflexivity.
Qed.

Lemma scores_ignore_user_messages_and_titles_witness :
  get_overall_scores
    (snd (add_user_message format_str (JStr "c3") (JStr "again") mixed_store))
  = get_overall_scores mixed_store.
Proof.
  apply (proj1 (scores_ignore_user_messages_and_titles format_str (JStr "c3")
                  mixed_store _ stored_under_own_id_c3) (JStr "again")).
  reflexivity.
Defined.

Lemma remove_file_absent (path : string) (files : store) :
  ~ In path (map fst files) -> remove_file path files = files.
Proof.
  unfold remove_file; induction files as [| [name doc] files IH]; simpl;
    [reflexivity |].
  intros Hnot; destruct (String.eqb_spec path name); simpl.
  - exfalso; apply Hnot; left; congruence.
  - rewrite IH; [reflexivity | tauto].
Qed.

Lemma foldM_archived_file (path : string) (c c' : json) (files : store) :
  NoDup (map fst files) ->
  read_file path files = Some c ->
  is_archived c' = true ->
  forall st,
    foldM process_file st (write_file path c' files) =
    foldM process_file st (remove_file path files).
Proof.
  unfold read_file, write_file; intros Hnd Hread Harch.
  induction files as [| [name doc] files IH]; intros st;
    cbn [lookup dict_set map fst] in *; [discriminate |].
  inversion Hnd as [| ? ? Hnot Hnd']; subst.
  unfold remove_file; cbn [filter fst]; fold (remove_file path files).
  destruct (String.eqb_spec path name); cbn [negb foldM].
  - subst name; rewrite (process_file_archived _ _ _ Harch); cbn [bind].
    rewrite remove_file_absent; auto.
  - destruct (process_file st (name, doc)); cbn [bind]; auto.
Qed.

(** X8. Archiving hides a conversation from the scores as deleting it
    does: when the conversation is stored under its own id, in a directory
    that has no file name twice, the store that
    [archive_conversation(id, True)] leaves gives the overall scores, or
    the exception, of the store that [delete_conversation(id)] leaves. *)
Theorem archived_scores_as_deleted
    (format : json -> string) (conversation_id : json) (files files' : store) :
  stored_under_own_id format conversation_id files ->
  NoDup (map fst files) ->
  archive_conversation format conversation_id true files = (Ok tt, files') ->
  exists files'',
    delete_conversation format conversation_id files = (Ok tt, files'')
    /\ get_overall_scores files' = get_overall_scores files''.
Proof.
  intros Hown Hnd H.
  apply loaded_then_saved in H as (c & c' & Hread & Hchange & Hsave).
  assert (Hid : forall id, py_getitem c' "id" = Ok id -> py_getitem c "id" = Ok id).
  { apply py_setitem_get in Hchange as [_ Hother].
    intros id; rewrite Hother by discriminate; auto. }
  rewrite (saved_in_place _ _ _ _ _ _ Hown Hread Hid Hsave).
  unfold delete_conversation; rewrite Hread.
  eexists; split; [reflexivity |].
  unfold get_overall_scores, scan.
  rewrite (foldM_archived_file _ c c' files Hnd Hread); [reflexivity |].
  destruct c; try discriminate; injection Hchange as <-.
  unfold is_archived, field; simpl; rewrite lookup_dict_set; reflexivity.
Qed.

Lemma archived_scores_as_deleted_witness :
  exists files'',
    delete_conversation format_str (JStr "c3") mixed_store = (Ok tt, files'')
    /\ get_overall_scores
         (snd (archive_conversation format_str (JStr "c3") true mixed_store))
       = get_overall_scores files''.
Proof.
  apply (archived_scores_as_deleted format_str (JStr "c3") mixed_store _
           stored_under_own_id_c3).
  - repeat constructor; simpl; intuition discriminate.
  - reflexivity.
Defined.

(** ** Listing the conversations *)

Lemma py_getitem_get (c : json) (k k' : string) (v d : json) :
  py_getitem c k = Ok v -> py_get c k' d = Ok (field c k' d).
Proof. destruct c; simpl; intros H; try discriminate; reflexivity. Qed.

Lemma metadata_of_describes (c m : json) :
  metadata_of c = Ok m <-> describes c m.
Proof.
  unfold metadata_of, describes; split.
  - intros H.
    apply bind_ok in H as (id & Hid & H).
    apply bind_ok in H as (created & Hc & H).
    apply bind_ok in H as (title & Ht & H).
    apply bind_ok in H as (messages & Hm & H).
    apply bind_ok in H as (n & Hn & H).
    apply bind_ok in H as (archived & Ha & H).
    injection H as <-.
    apply py_get_field in Ht, Ha; subst.
    exists id, created, messages, n; auto.
  - intros (id & created & messages & n & Hid & Hc & Hm & Hn & ->).
    rewrite Hid, Hc; cbn [bind].
    rewrite !(py_getitem_get _ _ _ _ _ Hid), Hm; cbn [bind].
    rewrite Hn; reflexivity.
Qed.

Lemma listed_cons (include_archived : bool) (name : string) (data : json)
    (files : store) :
  listed include_archived ((name, data) :: files) =
  ((if endswith name ".json" && (include_archived || negb (is_archived data))
    then [data] else [])
   ++ listed include_archived files)%list.
Proof.
  unfold listed; cbn [filter fst].
  destruct (endswith name ".json"); cbn [map snd filter andb]; [| reflexivity].
  destruct (include_archived || negb (is_archived data)); reflexivity.
Qed.

Lemma list_files_run (include_archived : bool) (files : store) :
  forall acc l,
    foldM (list_file include_archived) acc files = Ok l ->
    exists metas,
      l = (acc ++ metas)%list
      /\ Forall2 describes (listed include_archived files) metas.
Proof.
  induction files as [| [name data] files IH]; intros acc l H; simpl in H.
  - injection H as <-; exists []; rewrite app_nil_r; split; [auto | constructor].
  - apply bind_ok in H as (acc1 & Hone & Hrest).
    apply IH in Hrest as (metas & -> & Hall); clear IH.
    rewrite listed_cons.
    destruct (endswith name ".json"); simpl in Hone |- *.
    + apply bind_ok in Hone as (skip & Hskip & Hone).
      assert (Hs : skip = negb (include_archived || negb (is_archived data))).
      { destruct include_archived; simpl in *; [congruence |].
        apply bind_ok in Hskip as (x & Hx & Hskip).
        apply py_get_field in Hx; unfold is_archived; rewrite Hx.
        rewrite negb_involutive; congruence. }
      rewrite Hs in Hone.
      destruct (include_archived || negb (is_archived data)); simpl in *.
      * apply bind_ok in Hone as (m & Hm & Hone); injection Hone as <-.
        exists (m :: metas); rewrite <- app_assoc; split; [reflexivity |].
        constructor; [apply metadata_of_describes, Hm | exact Hall].
      * injection Hone as <-; exists metas; auto.
    + injection Hone as <-; exists metas; auto.
Qed.

Lemma insert_newest_perm (x : json) (l l' : list json) :
  insert_newest x l = Ok l' -> Permutation l' (x :: l).
Proof.
  revert l'; induction l as [| y l IH]; intros l' H; simpl in H.
  - injection H as <-; reflexivity.
  - apply bind_ok in H as (older & _ & H); destruct older.
    + apply bind_ok in H as (rest & Hrest & H); injection H as <-.
      rewrite (IH _ Hrest); apply perm_swap.
    + injection H as <-; reflexivity.
Qed.

Lemma sort_newest_perm (l l' : list json) :
  sort_newest l = Ok l' -> Permutation l' l.
Proof.
  revert l'; induction l as [| x l IH]; intros l' H; simpl in H.
  - injection H as <-; reflexivity.
  - apply bind_ok in H as (sorted & Hs & H).
    rewrite (insert_newest_perm _ _ _ H); constructor; auto.
Qed.

(** X9. When [list_conversations] returns, it returns one metadata dict for
    each [.json] file that is not archived (for each [.json] file when
    archived ones are asked for), and nothing else: the id and created_at
    of the conversation, its title or "New Conversation", the length of
    its messages, and its archived flag or False. *)
Theorem list_conversations_lists_each_once
    (include_archived : bool) (files : store) (l : list json) :
  list_conversations include_archived files = Ok l ->
  exists metas,
    Forall2 describes (listed include_archived files) metas
    /\ Permutation l metas.
Proof.
  unfold list_conversations; intros H.
  apply bind_ok in H as (conversations & Hrun & Hsort).
  apply list_files_run in Hrun as (metas & -> & Hall).
  exists metas; split; [exact Hall | apply sort_newest_perm, Hsort].
Qed.

Lemma list_conversations_lists_each_once_witness :
  exists metas,
    Forall2 describes (listed false dated_store) metas
    /\ Permutation
         [JObj [("id", JStr "c"); ("created_at", JStr "2025-01-04T10:00:00");
                ("title", JStr "New Conversation"); ("message_count", JNum 0);
                ("archived", JBool false)];
          JObj [("id", JStr "a"); ("created_at", JStr "2025-01-02T10:00:00");
                ("title", JStr "Second"); ("message_count", JNum 1);
                ("archived", JBool false)]]
         metas.
Proof.
  apply (list_conversations_lists_each_once false dated_store); reflexivity.
Defined.

Lemma insert_newest_sorted (x : json) (l l' : list json) :
  Sorted not_older l -> insert_newest x l = Ok l' -> Sorted not_older l'.
Proof.
  revert l'; induction l as [| y l IH]; intros l' Hs H; simpl in H.
  - injection H as <-; repeat constructor.
  - inversion Hs as [| ? ? Hs' Hhd]; subst.
    apply bind_ok in H as (older & Hlt & H); destruct older.
    + apply bind_ok in H as (rest & Hrest & H); injection H as <-.
      constructor; [eauto |].
      destruct l as [| z l]; simpl in Hrest.
      * injection Hrest as <-; constructor; left; exact Hlt.
      * apply bind_ok in Hrest as (older & _ & Hrest); destruct older.
        -- apply bind_ok in Hrest as (rest' & _ & Hrest); injection Hrest as <-.
           inversion Hhd; subst; constructor; assumption.
        -- injection Hrest as <-; constructor; left; exact Hlt.
    + injection H as <-; constructor; [exact Hs |].
      constructor; right; exact Hlt.
Qed.

Lemma sort_newest_sorted (l l' : list json) :
  sort_newest l = Ok l' -> Sorted not_older l'.
Proof.
  revert l'; induction l as [| x l IH]; intros l' H; simpl in H.
  - injection H as <-; constructor.
  - apply bind_ok in H as (sorted & Hs & H).
    apply (insert_newest_sorted x sorted); [apply IH; exact Hs | exact H].
Qed.

Lemma sorted_not_older_adjacent (l : list json) :
  Sorted not_older l ->
  forall i a b, nth_error l i = Some a -> nth_error l (S i) = Some b ->
    not_older a b.
Proof.
  induction 1 as [| x l Hs IH Hhd]; intros i a b Ha Hb.
  - destruct i; discriminate.
  - destruct i as [| i]; simpl in Ha, Hb.
    + injection Ha as <-.
      destruct l as [| y l]; [discriminate |].
      injection Hb as <-; inversion Hhd; assumption.
    + eapply IH; eauto.
Qed.

Lemma ltb_asym (s t : string) : String.ltb t s = true -> String.ltb s t = false.
Proof.
  unfold String.ltb; rewrite (String.compare_antisym s t).
  destruct (String.compare t s); simpl; congruence.
Qed.

(** X10. When [list_conversations] returns, the newest conversation comes
    first: of two adjacent entries the earlier one is not older than the
    later one, which for created_at strings means that the earlier string
    is not below the later one. *)
Theorem list_conversations_newest_first
    (include_archived : bool) (files : store) (l : list json) :
  list_conversations include_archived files = Ok l ->
  forall i a b,
    nth_error l i = Some a -> nth_error l (S i) = Some b ->
    not_older a b
    /\ forall s t,
         created_at a = JStr s -> created_at b = JStr t ->
         String.ltb s t = false.
Proof.
  unfold list_conversations; intros H i a b Ha Hb.
  apply bind_ok in H as (conversations & _ & Hsort).
  pose proof (sorted_not_older_adjacent _ (sort_newest_sorted _ _ Hsort)
                i a b Ha Hb) as Hab.
  split; [exact Hab |].
  intros s t Hs Ht; unfold not_older in Hab; rewrite Hs, Ht in Hab; simpl in Hab.
  destruct Hab as [Hab | Hab]; injection Hab as Hab; [now apply ltb_asym | exact Hab].
Qed.

Lemma list_conversations_newest_first_witness :
  not_older
    (JObj [("id", JStr "c"); ("created_at", JStr "2025-01-04T10:00:00");
           ("title", JStr "New Conversation"); ("message_count", JNum 0);
           ("archived", JBool false)])
    (JObj [("id", JStr "b"); ("created_at", JStr "2025-01-03T10:00:00");
           ("title", JStr "New Conversation"); ("message_count", JNum 0);
           ("archived", JBool true)])
  /\ forall s t,
       JStr "2025-01-04T10:00:00" = JStr s ->
       JStr "2025-01-03T10:00:00" = JStr t ->
       String.ltb s t = false.
Proof.
  apply (list_conversations_newest_first true dated_store _ eq_refl 0%nat);
    reflexivity.
Defined.

Lemma Forall2_in_r {A B : Type} (R : A -> B -> Prop) (l : list A) (l' : list B) :
  Forall2 R l l' -> forall y, In y l' -> exists x, In x l /\ R x y.
Proof.
  induction 1 as [| x y l l' Hxy Hall IH]; intros z Hin; [destruct Hin |].
  destruct Hin as [<- | Hin]; [exists x; split; [now left | exact Hxy] |].
  destruct (IH z Hin) as (x' & Hx' & Hr); exists x'; split; [now right | exact Hr].
Qed.

(** X11. [list_conversations()] shows no archived conversation: when it
    returns with archived ones not asked for, the archived flag of every
    entry is False or another false value. *)
Theorem list_conversations_hides_archived (files : store) (l : list json) :
  list_conversations false files = Ok l ->
  forall metadata, In metadata l ->
    truthy (field metadata "archived" (JBool false)) = false.
Proof.
  unfold list_conversations; intros H m Hin.
  apply bind_ok in H as (conversations & Hrun & Hsort).
  apply list_files_run in Hrun as (metas & -> & Hall); simpl in Hsort.
  apply (Permutation_in _ (sort_newest_perm _ _ Hsort)) in Hin.
  destruct (Forall2_in_r _ _ _ Hall m Hin) as (c & Hc & Hd).
  destruct Hd as (id & created & messages & n & _ & _ & _ & _ & ->).
  unfold listed in Hc; apply filter_In in Hc as [_ Hc]; simpl in Hc.
  unfold is_archived in Hc; unfold field at 1; simpl.
  destruct (truthy (field c "archived" (JBool false))); [discriminate | reflexivity].
Qed.

Lemma list_conversations_hides_archived_witness :
  truthy
    (field
       (JObj [("id", JStr "a"); ("created_at", JStr "2025-01-02T10:00:00");
              ("title", JStr "Second"); ("message_count", JNum 1);
              ("archived", JBool false)])
       "archived" (JBool false)) = false.
Proof.
  apply (list_conversations_hides_archived dated_store _ eq_refl).
  right; left; reflexivity.
Defined.

(** ** Stores that the operations keep well formed *)

Lemma conversation_ok_metadata (c : json) :
  conversation_ok c = true ->
  exists m, metadata_of c = Ok m /\ dated m.
Proof.
  destruct c as [| | | | | members]; simpl; try discriminate.
  unfold metadata_of; simpl.
  destruct (lookup "id" members) as [id |]; [| discriminate].
  destruct (lookup "created_at" members) as [[| | | s | |] |]; try discriminate.
  destruct (lookup "messages" members) as [[| | | | items |] |]; try discriminate.
  intros _; simpl; eexists; split; [reflexivity | exists s; reflexivity].
Qed.

Lemma list_file_total (include_archived : bool) (acc : list json)
    (f : string * json) :
  Forall dated acc -> conversation_ok (snd f) = true ->
  exists acc', list_file include_archived acc f = Ok acc' /\ Forall dated acc'.
Proof.
  destruct f as [name data]; simpl; intros Hacc Hok.
  unfold list_file; destruct (endswith name ".json"); simpl; [| eauto].
  destruct (conversation_ok_metadata _ Hok) as (m & Hm & Hd).
  destruct data; try discriminate.
  destruct include_archived; simpl.
  - rewrite Hm; simpl; eexists; split; [reflexivity |].
    apply Forall_app; auto.
  - destruct (truthy _); simpl; [eauto |].
    rewrite Hm; simpl; eexists; split; [reflexivity |].
    apply Forall_app; auto.
Qed.

Lemma insert_newest_total (x : json) (l : list json) :
  dated x -> Forall dated l ->
  exists l', insert_newest x l = Ok l' /\ Forall dated l'.
Proof.
  intros [s Hs] Hl; induction Hl as [| y l [t Ht] Hl IH]; simpl.
  - eexists; split; [reflexivity |]; repeat constructor; exists s; exact Hs.
  - rewrite Hs, Ht; simpl.
    destruct (String.ltb s t).
    + destruct IH as (rest & -> & Hrest); simpl.
      eexists; split; [reflexivity |]; constructor; [exists t |]; auto.
    + eexists; split; [reflexivity |].
      constructor; [exists s; auto |]; constructor; [exists t |]; auto.
Qed.

Lemma sort_newest_total (l : list json) :
  Forall dated l -> exists l', sort_newest l = Ok l' /\ Forall dated l'.
Proof.
  induction 1 as [| x l Hx Hl IH]; simpl; [eauto |].
  destruct IH as (sorted & -> & Hs); simpl.
  apply insert_newest_total; assumption.
Qed.

Lemma list_files_total (include_archived : bool) (files : store) :
  store_ok files ->
  exists conversations,
    foldM (list_file include_archived) [] files = Ok conversations
    /\ Forall dated conversations.
Proof.
  intros Hok.
  apply (foldM_total (Forall dated) _ (list_file include_archived) files
           (list_file_total include_archived) [] (Forall_nil _) Hok).
Qed.


(** X12. On a store in which every file holds a dict with an id, a
    created_at string and a messages list, [list_conversations] returns,
    with archived conversations or without. *)
Theorem list_conversations_returns (include_archived : bool) (files : store) :
  store_ok files -> exists l, list_conversations include_archived files = Ok l.
Proof.
  intros Hok; unfold list_conversations.
  destruct (list_files_total include_archived files Hok)
    as (conversations & -> & Hd); simpl.
  destruct (sort_newest_total _ Hd) as (l & Hl & _).
  exists l; exact Hl.
Qed.

Lemma list_conversations_returns_witness :
  exists l, list_conversations true dated_store = Ok l.
Proof.
  apply (list_conversations_returns true dated_store).
  repeat constructor.
Defined.









(** ** More on the leaderboard *)

Lemma foldM_skip {A S : Type} (body : S -> A -> result S) (keep : A -> bool)
    (l : list A) :
  (forall s x, keep x = false -> body s x = Ok s) ->
  forall s, foldM body s l = foldM body s (filter keep l).
Proof.
  intros Hskip; induction l as [| x l IH]; intros s; [reflexivity |].
  cbn [foldM filter]; destruct (keep x) eqn:E; cbn [foldM].
  - destruct (body s x); cbn [bind]; auto.
  - rewrite (Hskip s x E); cbn [bind]; apply IH.
Qed.

(** X14. Only the [.json] files of the directory are looked at: whatever
    the other files hold, [get_overall_scores] and [list_conversations]
    give what they give on the [.json] files alone. *)
Theorem only_json_files_are_read (files : store) :
  get_overall_scores files =
  get_overall_scores (filter (fun f => endswith (fst f) ".json") files)
  /\ forall include_archived,
       list_conversations include_archived files =
       list_conversations include_archived
         (filter (fun f => endswith (fst f) ".json") files).
Proof.
  split; [| intros include_archived].
  - unfold get_overall_scores, scan.
    rewrite (foldM_skip process_file (fun f => endswith (fst f) ".json"));
      [reflexivity |].
    intros s [name data] H; simpl in *; unfold process_file; rewrite H;
      reflexivity.
  - unfold list_conversations.
    rewrite (foldM_skip (list_file include_archived)
               (fun f => endswith (fst f) ".json")); [reflexivity |].
    intros s [name data] H; simpl in *; unfold list_file; rewrite H;
      reflexivity.
Qed.

Lemma award_places (ms ms' : model_scores_t) (o : occurrence) :
  award_occ ms o = Ok ms' ->
  forall k,
    let mine := filter (has_key k) [o] in
    firsts (find_scores k ms') = firsts (find_scores k ms) + place_count 0 mine
    /\ seconds (find_scores k ms') = seconds (find_scores k ms) + place_count 1 mine
    /\ thirds (find_scores k ms') = thirds (find_scores k ms) + place_count 2 mine.
Proof.
  destruct o as [n [p l]]; unfold award_occ, award, has_key, occ_label; simpl.
  intros H k.
  apply bind_ok in H as (kl & Hk & H); rewrite Hk.
  apply bind_ok in H as (h & Hh & H); injection H as <-.
  rewrite find_set_scores.
  destruct (pykey_eqb k kl) eqn:E; unfold place_count; simpl; [| lia].
  apply pykey_eqb_eq in E; subst kl.
  destruct (find_scores k ms) as [s |]; simpl;
    destruct p as [| [| [| p]]]; simpl; lia.
Qed.

Lemma awards_places (occs : list occurrence) :
  forall ms ms', foldM award_occ ms occs = Ok ms' ->
  forall k,
    let mine := filter (has_key k) occs in
    firsts (find_scores k ms') = firsts (find_scores k ms) + place_count 0 mine
    /\ seconds (find_scores k ms') = seconds (find_scores k ms) + place_count 1 mine
    /\ thirds (find_scores k ms') = thirds (find_scores k ms) + place_count 2 mine.
Proof.
  induction occs as [| o occs IH]; intros ms ms' Hrun k; simpl in Hrun.
  - injection Hrun as <-; unfold place_count; simpl; lia.
  - apply bind_ok in Hrun as (ms1 & Hstep & Hrest).
    specialize (IH _ _ Hrest k); cbv zeta in IH.
    pose proof (award_places _ _ _ Hstep k) as Hone; cbv zeta in Hone.
    cbv zeta; unfold place_count in *; cbn [filter] in *.
    destruct (has_key k o); cbn [filter List.length] in *;
      [destruct (fst (snd o)) as [| [| [| p]]] |];
      cbn [Nat.eqb List.length] in *; lia.
Qed.

Lemma entry_source (files : store) (r : overall) (e : scores) (k : pykey) :
  get_overall_scores files = Ok r -> In e (leaderboard r) ->
  hash_key (model e) = Ok k ->
  exists ms tc tr s,
    scan files = Ok (ms, tc, tr)
    /\ find_scores k ms = Some s
    /\ summarize s = Ok e.
Proof.
  intros H Hin Hk.
  destruct (get_overall_scores_ok _ _ H) as (ms & tc & tr & board & Hscan & _).
  destruct (proj1 (leaderboard_entries _ _ _ _ _ H Hscan e) Hin)
    as (k' & s & Hf & Hsum).
  pose proof (scan_entry _ _ _ _ Hscan k') as He; rewrite Hf in He.
  destruct He as (_ & Hk' & _).
  assert (model e = model s)
    by (apply summarize_ok in Hsum as (? & _ & _ & _ & ->); reflexivity).
  assert (k' = k) by congruence; subst k'.
  exists ms, tc, tr, s; auto.
Qed.

Lemma scan_places (files : store) (ms : model_scores_t) (tc tr : Z)
    (k : pykey) (s : scores) :
  scan files = Ok (ms, tc, tr) -> find_scores k ms = Some s ->
  first_places s = place_count 0 (occurrences k files)
  /\ second_places s = place_count 1 (occurrences k files)
  /\ third_places s = place_count 2 (occurrences k files).
Proof.
  intros Hscan Hf.
  destruct (scan_run _ _ _ _ Hscan) as (Hrun & _).
  pose proof (awards_places _ _ _ Hrun k) as Hp; cbv zeta in Hp.
  fold (occurrences k files) in Hp; rewrite Hf in Hp; simpl in Hp; lia.
Qed.

(** X15. Whenever [get_overall_scores] returns, the first_places,
    second_places and third_places of an entry are the numbers of
    occurrences of its label at the 0-indexed positions 0, 1 and 2; an
    occurrence further down counts in none of them. *)
Theorem places_count_the_top_three
    (files : store) (r : overall) (e : scores) (k : pykey) :
  get_overall_scores files = Ok r -> In e (leaderboard r) ->
  hash_key (model e) = Ok k ->
  first_places e = place_count 0 (occurrences k files)
  /\ second_places e = place_count 1 (occurrences k files)
  /\ third_places e = place_count 2 (occurrences k files).
Proof.
  intros H Hin Hk.
  destruct (entry_source _ _ _ _ H Hin Hk) as (ms & tc & tr & s & Hscan & Hf & Hsum).
  pose proof (scan_places _ _ _ _ _ _ Hscan Hf) as Hp.
  apply summarize_ok in Hsum as (h & _ & _ & _ & ->); exact Hp.
Qed.

Lemma places_count_the_top_three_witness :
  first_places (entry "m2" 5 3 2 1 0 (float_div 4 3) (float_div 5 3))
    = place_count 0 (occurrences (KStr "m2") mixed_store)
  /\ second_places (entry "m2" 5 3 2 1 0 (float_div 4 3) (float_div 5 3))
    = place_count 1 (occurrences (KStr "m2") mixed_store)
  /\ third_places (entry "m2" 5 3 2 1 0 (float_div 4 3) (float_div 5 3))
    = place_count 2 (occurrences (KStr "m2") mixed_store).
Proof.
  apply (places_count_the_top_three mixed_store mixed_result);
    [reflexivity | left; reflexivity | reflexivity].
Defined.

Lemma existsb_keys (k : pykey) (ms : model_scores_t) :
  existsb (pykey_eqb k) (map fst ms) =
  match find_scores k ms with Some _ => true | None => false end.
Proof.
  induction ms as [| [k0 s0] ms IH]; simpl; [reflexivity |].
  destruct (pykey_eqb k k0); simpl; auto.
Qed.

Lemma awards_keys (occs : list occurrence) :
  forall ms ms', foldM award_occ ms occs = Ok ms' ->
  map fst ms' = fold_left seen occs (map fst ms).
Proof.
  induction occs as [| o occs IH]; intros ms ms' H; simpl in H.
  - injection H as <-; reflexivity.
  - apply bind_ok in H as (ms1 & Hstep & Hrest).
    rewrite (IH _ _ Hrest); simpl; f_equal.
    destruct o as [n [p l]]; unfold award_occ, award, seen, occ_label in *;
      simpl in *.
    apply bind_ok in Hstep as (k & Hk & Hstep); rewrite Hk.
    apply bind_ok in Hstep as (h & _ & Hstep); injection Hstep as <-.
    rewrite keys_set_scores, existsb_keys.
    destruct (find_scores k ms); reflexivity.
Qed.

Lemma build_leaderboard_all (ms : model_scores_t) :
  forall board, build_leaderboard ms = Ok board ->
  (forall k s, In (k, s) ms -> rankings_received s > 0) ->
  Forall2 (fun ks e => summarize (snd ks) = Ok e) ms board.
Proof.
  induction ms as [| [k0 s0] ms IH]; intros board H Hall; simpl in H.
  - injection H as <-; constructor.
  - assert (E : (rankings_received s0 >? 0) = true)
      by (apply Z.gtb_lt; specialize (Hall k0 s0 (or_introl eq_refl)); lia).
    rewrite E in H.
    apply bind_ok in H as (e0 & He0 & H).
    apply bind_ok in H as (rest & Hrest & H); injection H as <-.
    constructor; [exact He0 |].
    apply IH; [exact Hrest | intros k s Hin; apply (Hall k); now right].
Qed.

Lemma filter_insert_desc (p : Z) (e : scores) (l : list scores) :
  filter (has_points p) (insert_desc e l) = filter (has_points p) (e :: l).
Proof.
  induction l as [| x l IH]; [reflexivity |].
  cbn [insert_desc]; destruct (total_points x >? total_points e) eqn:E;
    [| reflexivity].
  cbn [filter] in *; rewrite IH.
  apply Z.gtb_lt in E; unfold has_points.
  destruct (Z.eqb_spec (total_points e) p), (Z.eqb_spec (total_points x) p);
    try reflexivity; lia.
Qed.

Lemma filter_sort_desc (p : Z) (l : list scores) :
  filter (has_points p) (sort_desc l) = filter (has_points p) l.
Proof.
  induction l as [| x l IH]; [reflexivity |].
  cbn [sort_desc fold_right]; fold (sort_desc l).
  rewrite filter_insert_desc; cbn [filter]; rewrite IH; reflexivity.
Qed.

(** X16. The entries of the leaderboard are the labels in the order in
    which the scan first met them, sorted by total_points: each label seen
    has one entry, and entries that have the same total_points stand in
    the order of first appearance of their labels. *)
Theorem ties_keep_first_appearance (files : store) (r : overall) :
  get_overall_scores files = Ok r ->
  exists board,
    map (fun e => hash_key (model e)) board
      = map Ok (first_seen (ranked_labels files))
    /\ Permutation (leaderboard r) board
    /\ forall p,
         filter (has_points p) (leaderboard r) = filter (has_points p) board.
Proof.
  intros H.
  destruct (get_overall_scores_ok _ _ H) as (ms & tc & tr & board & Hscan & Hb & ->).
  exists board; simpl; split; [| split].
  - destruct (scan_run _ _ _ _ Hscan) as (Hrun & _).
    pose proof (awards_keys _ _ _ Hrun) as Hkeys; simpl in Hkeys.
    unfold first_seen; rewrite <- Hkeys; clear Hkeys.
    pose proof (scan_keyed _ _ _ _ Hscan) as [Hnd Hall].
    assert (Hpos : forall k s, In (k, s) ms -> rankings_received s > 0).
    { intros k s Hin.
      pose proof (scan_entry _ _ _ _ Hscan k) as He.
      rewrite (in_find_scores _ _ _ Hnd Hin) in He.
      destruct He as (Ht & _ & Hne).
      pose proof (tallies_received _ _ Ht Hne); lia. }
    pose proof (build_leaderboard_all _ _ Hb Hpos) as Hall2.
    clear Hb Hpos Hnd Hrun Hscan H.
    induction Hall2 as [| [k s] e ms board Hsum Hall2 IH]; [reflexivity |].
    simpl; f_equal.
    + apply summarize_ok in Hsum as (h & _ & _ & _ & ->); simpl.
      apply (Hall k s); now left.
    + apply IH; intros k' s' Hin; apply Hall; now right.
  - apply sort_desc_perm.
  - intros p; apply filter_sort_desc.
Qed.

Example tie_scores : get_overall_scores tie_store = Ok tie_result.
Proof. reflexivity. Qed.

Lemma ties_keep_first_appearance_witness :
  exists board,
    map (fun e => hash_key (model e)) board
      = map Ok (first_seen (ranked_labels tie_store))
    /\ Permutation (leaderboard tie_result) board
    /\ forall p,
         filter (has_points p) (leaderboard tie_result)
         = filter (has_points p) board.
Proof.
  apply (ties_keep_first_appearance tie_store tie_result); reflexivity.
Defined.

(** ** The order of the directory listing *)

Lemma perm_filter {A : Type} (f : A -> bool) (l l' : list A) :
  Permutation l l' -> Permutation (filter f l) (filter f l').
Proof.
  induction 1 as [| x l l' Hp IH | x y l | l l' l'' Hp1 IH1 Hp2 IH2]; simpl.
  - constructor.
  - destruct (f x); [constructor |]; assumption.
  - destruct (f x), (f y); try reflexivity; apply perm_swap.
  - etransitivity; eassumption.
Qed.

Lemma sum_perm (l l' : list Z) : Permutation l l' -> sum l = sum l'.
Proof.
  unfold sum; induction 1; simpl; lia.
Qed.

Lemma analyzed_messages_perm (files files' : store) :
  Permutation files files' ->
  Permutation (analyzed_messages files) (analyzed_messages files').
Proof.
  intros Hp; unfold analyzed_messages, live_conversations.
  apply perm_filter, Permutation_flat_map, perm_filter, Permutation_map,
    perm_filter, Hp.
Qed.

Lemma processed_rankings_perm (files files' : store) :
  Permutation files files' ->
  Permutation (processed_rankings files) (processed_rankings files').
Proof.
  intros Hp; unfold processed_rankings.
  apply Permutation_flat_map, analyzed_messages_perm, Hp.
Qed.

Lemma occurrences_perm (k : pykey) (files files' : store) :
  Permutation files files' ->
  Permutation (occurrences k files) (occurrences k files').
Proof.
  intros Hp; unfold occurrences, ranked_labels.
  apply perm_filter, Permutation_flat_map, processed_rankings_perm, Hp.
Qed.

Lemma well_shaped_perm (files files' : store) :
  Permutation files files' -> well_shaped files = true ->
  well_shaped files' = true.
Proof.
  unfold well_shaped; intros Hp H.
  rewrite forallb_forall in *; intros f Hin.
  apply H, (Permutation_in _ (Permutation_sym Hp)), Hin.
Qed.

(** X17. The order in which the directory lists its files matters only for
    ties: on a reordered listing [get_overall_scores] returns if it
    returned before, with the same two counters and, for each label, an
    entry with the same total_points, rankings_received, places and
    averages. *)
Theorem listing_order_only_breaks_ties (files files' : store) (r : overall) :
  Permutation files files' ->
  get_overall_scores files = Ok r ->
  exists r',
    get_overall_scores files' = Ok r'
    /\ total_conversations_analyzed r' = total_conversations_analyzed r
    /\ total_rankings_processed r' = total_rankings_processed r
    /\ forall e, In e (leaderboard r) ->
         exists e',
           In e' (leaderboard r')
           /\ hash_key (model e') = hash_key (model e)
           /\ total_points e' = total_points e
           /\ rankings_received e' = rankings_received e
           /\ first_places e' = first_places e
           /\ second_places e' = second_places e
           /\ third_places e' = third_places e
           /\ average_position e' = average_position e
           /\ average_points e' = average_points e.
Proof.
  intros Hp H.
  destruct (well_shaped_returns files') as (r' & H').
  { eapply well_shaped_perm; [exact Hp | eapply returns_well_shaped; eauto]. }
  exists r'; split; [exact H' |].
  destruct (get_overall_scores_ok _ _ H) as (ms & tc & tr & board & Hscan & _ & Hr).
  destruct (get_overall_scores_ok _ _ H') as (ms' & tc' & tr' & board' & Hscan' & _ & Hr').
  destruct (scan_run _ _ _ _ Hscan) as (_ & Htc & Htr).
  destruct (scan_run _ _ _ _ Hscan') as (_ & Htc' & Htr').
  split; [| split].
  - rewrite Hr, Hr'; simpl; rewrite Htc, Htc'.
    f_equal; symmetry; apply Permutation_length, analyzed_messages_perm, Hp.
  - rewrite Hr, Hr'; simpl; rewrite Htr, Htr'.
    f_equal; symmetry; apply Permutation_length, processed_rankings_perm, Hp.
  - intros e Hin.
    destruct (entry_facts _ _ _ H Hin) as (k & Hk & Hne & Ht & _ & Hpos & Hpts).
    pose proof (occurrences_perm k _ _ Hp) as Hocc.
    assert (Hne' : occurrences k files' <> []).
    { intros Hempty; rewrite Hempty in Hocc.
      apply Permutation_sym, Permutation_nil in Hocc; contradiction. }
    destruct (entry_exists _ _ _ H' Hne') as (e' & Hin' & Hk').
    exists e'; split; [exact Hin' |]; split; [congruence |].
    destruct (entry_facts _ _ _ H' Hin') as (k' & Hk'' & _ & Ht' & _ & Hpos' & Hpts').
    assert (k' = k) by congruence; subst k'.
    destruct (entry_source _ _ _ _ H Hin Hk) as (? & ? & ? & s & Hs & Hf & Hsum).
    destruct (entry_source _ _ _ _ H' Hin' Hk') as (? & ? & ? & s' & Hs' & Hf' & Hsum').
    pose proof (scan_places _ _ _ _ _ _ Hs Hf) as (Hp1 & Hp2 & Hp3).
    pose proof (scan_places _ _ _ _ _ _ Hs' Hf') as (Hq1 & Hq2 & Hq3).
    apply summarize_ok in Hsum as (? & _ & _ & _ & He).
    apply summarize_ok in Hsum' as (? & _ & _ & _ & He').
    assert (Hplace : forall p,
              place_count p (occurrences k files')
              = place_count p (occurrences k files)).
    { intros p; unfold place_count; f_equal.
      symmetry; apply Permutation_length, perm_filter, Hocc. }
    destruct Ht as (Htp & Hrc & _), Ht' as (Htp' & Hrc' & _); simpl in *.
    assert (Hpoints : total_points e' = total_points e).
    { rewrite Htp, Htp'; symmetry.
      apply sum_perm, Permutation_map, Hocc. }
    assert (Hrecv : rankings_received e' = rankings_received e).
    { rewrite Hrc, Hrc'; f_equal; symmetry; apply Permutation_length, Hocc. }
    repeat split; auto.
    + rewrite He, He'; simpl; rewrite Hp1, Hq1; apply Hplace.
    + rewrite He, He'; simpl; rewrite Hp2, Hq2; apply Hplace.
    + rewrite He, He'; simpl; rewrite Hp3, Hq3; apply Hplace.
    + rewrite Hpos, Hpos'.
      rewrite (sum_perm _ _ (Permutation_map occ_place Hocc)).
      rewrite (Permutation_length Hocc); reflexivity.
    + rewrite Hpts, Hpts', Hpoints, Hrecv; reflexivity.
Qed.

Lemma listing_order_only_breaks_ties_witness :
  exists r',
    get_overall_scores
      [("notes.txt", JStr "not a conversation");
       ("c4.json",
        JObj [("id", JStr "c4"); ("archived", JBool true);
              ("messages",
               JArr [assistant (JArr [judge "judgeA" ["m9"; "m1"]])])]);
       ("c3.json",
        conversation_of "c3"
          [JObj [("role", JStr "user"); ("content", JStr "hello")];
           assistant (JArr []);
           assistant (JArr [judge "judgeA" ["m1"; "m2"];
                            judge "judgeB" ["m2"; "m1"]]);
           assistant (JArr [judge "judgeA" ["m2"; "m1"]; judge "judgeB" []])])]
    = Ok r'
    /\ total_conversations_analyzed r' = total_conversations_analyzed mixed_result
    /\ total_rankings_processed r' = total_rankings_processed mixed_result
    /\ forall e, In e (leaderboard mixed_result) ->
         exists e',
           In e' (leaderboard r')
           /\ hash_key (model e') = hash_key (model e)
           /\ total_points e' = total_points e
           /\ rankings_received e' = rankings_received e
           /\ first_places e' = first_places e
           /\ second_places e' = second_places e
           /\ third_places e' = third_places e
           /\ average_position e' = average_position e
           /\ average_points e' = average_points e.
Proof.
  apply (listing_order_only_breaks_ties mixed_store).
  - apply (Permutation_rev mixed_store).
  - reflexivity.
Defined.

(** ** What the operations write is read back *)

Lemma length_append (s t : string) :
  String.length (s ++ t) = (String.length s + String.length t)%nat.
Proof. induction s as [| c s IH]; simpl; [| rewrite IH]; reflexivity. Qed.

Lemma substring_whole (s : string) : substring 0 (String.length s) s = s.
Proof. induction s as [| c s IH]; simpl; [| rewrite IH]; reflexivity. Qed.

Lemma substring_suffix (s t : string) :
  substring (String.length s) (String.length t) (s ++ t) = t.
Proof.
  induction s as [| c s IH]; simpl; [apply substring_whole | exact IH].
Qed.

Lemma endswith_append (s t : string) : endswith (s ++ t) t = true.
Proof.
  unfold endswith; rewrite length_append.
  replace (String.length s + String.length t - String.length t)%nat
    with (String.length s) by lia.
  rewrite substring_suffix, String.eqb_refl, andb_true_r.
  apply Nat.leb_le; lia.
Qed.

Lemma conversation_path_is_json (format : json -> string) (id : json) :
  endswith (get_conversation_path format id) ".json" = true.
Proof. apply endswith_append. Qed.





(** ** A new assistant message in the scores *)

Lemma read_split (path : string) (c : json) (files : store) :
  read_file path files = Some c ->
  exists files1 files2,
    files = (files1 ++ (path, c) :: files2)%list
    /\ forall c', write_file path c' files = (files1 ++ (path, c') :: files2)%list.
Proof.
  unfold read_file, write_file.
  induction files as [| [name doc] files IH]; simpl; [discriminate |].
  destruct (String.eqb_spec path name).
  - intros H; injection H as ->; subst name.
    exists [], files; split; reflexivity.
  - intros H; destruct (IH H) as (files1 & files2 & -> & Hw).
    exists ((name, doc) :: files1), files2; split; [reflexivity |].
    intros c'; simpl; rewrite Hw; reflexivity.
Qed.

Lemma analyzed_messages_app (files1 files2 : store) :
  analyzed_messages (files1 ++ files2)%list =
  (analyzed_messages files1 ++ analyzed_messages files2)%list.
Proof.
  induction files1 as [| [name data] files1 IH]; [reflexivity |].
  cbn [app]; rewrite !analyzed_messages_cons, IH, app_assoc; reflexivity.
Qed.

Lemma falsy_elements (v : json) : truthy v = false -> elements v = [].
Proof.
  destruct v as [| b | n | s | items | members]; simpl; try reflexivity.
  - destruct s; [reflexivity | discriminate].
  - destruct items; [reflexivity | discriminate].
  - destruct members; [reflexivity | discriminate].
Qed.

Lemma analyzed_after_append (path : string) (c c' message : json)
    (files : store) :
  read_file path files = Some c ->
  endswith path ".json" = true ->
  is_archived c = false ->
  append_message c message = Ok c' ->
  Permutation (analyzed_messages (write_file path c' files))
    (analyzed_messages files ++ filter is_analyzed [message])%list.
Proof.
  intros Hread Hjson Hlive Happ.
  destruct (read_split _ _ _ Hread) as (files1 & files2 & -> & Hw); rewrite Hw.
  apply append_message_members in Happ as (m & msgs & -> & Hl & ->).
  rewrite !analyzed_messages_app, !analyzed_messages_cons, Hjson.
  assert (Ha : is_archived
                 (JObj (dict_set "messages" (JArr (msgs ++ [message])%list) m))
               = is_archived (JObj m)).
  { unfold is_archived, field; simpl.
    rewrite lookup_dict_set_other by discriminate; reflexivity. }
  rewrite Ha, Hlive; cbn [andb negb].
  unfold messages_of, field; simpl; rewrite lookup_dict_set, Hl; simpl.
  change (elements (JArr (msgs ++ [message]))) with (msgs ++ [message])%list.
  change (elements (JArr msgs)) with msgs.
  change (if is_analyzed message then [message] else [])
    with (filter is_analyzed [message]).
  rewrite filter_app, <- !app_assoc.
  apply Permutation_app_head, Permutation_app_head, Permutation_app_comm.
Qed.

(** X19. A new assistant message is counted once: when the conversation is
    stored under its own id and is not archived, and [get_overall_scores]
    returns before and after [add_assistant_message], then
    total_conversations_analyzed has grown by one if stage2 is not empty,
    total_rankings_processed by the number of ranking results of stage2
    with a non-empty parsed_ranking, and the total_points of an entry are
    the points of its label's occurrences before plus those in the new
    message. *)
Theorem assistant_message_is_counted_once
    (format : json -> string) (conversation_id stage1 stage2 stage3 : json)
    (files files' : store) (r r' : overall) :
  stored_under_own_id format conversation_id files ->
  (forall conversation,
     read_file (get_conversation_path format conversation_id) files
       = Some conversation ->
     is_archived conversation = false) ->
  add_assistant_message format conversation_id stage1 stage2 stage3 files
    = (Ok tt, files') ->
  get_overall_scores files = Ok r ->
  get_overall_scores files' = Ok r' ->
  let message :=
    JObj [("role", JStr "assistant"); ("stage1", stage1);
          ("stage2", stage2); ("stage3", stage3)] in
  total_conversations_analyzed r' =
    total_conversations_analyzed r + (if truthy stage2 then 1 else 0)
  /\ total_rankings_processed r' =
     total_rankings_processed r
     + Z.of_nat (List.length (filter has_ranking (elements stage2)))
  /\ forall e' k,
       In e' (leaderboard r') -> hash_key (model e') = Ok k ->
       total_points e' =
       sum (map occ_points (occurrences k files))
       + sum (map occ_points
                (filter (has_key k) (flat_map labels_of (rankings_of message)))).
Proof.
  intros Hown Hlive H Hr Hr' message.
  apply loaded_then_saved in H as (c & c' & Hread & Hchange & Hsave).
  assert (Hid : forall id, py_getitem c' "id" = Ok id -> py_getitem c "id" = Ok id).
  { pose proof Hchange as Hc.
    apply append_message_ok in Hc as (? & _ & _ & Hother).
    intros id; rewrite Hother by discriminate; auto. }
  rewrite (saved_in_place _ _ _ _ _ _ Hown Hread Hid Hsave) in Hr'.
  pose proof (analyzed_after_append _ _ _ _ _ Hread
                (conversation_path_is_json format conversation_id)
                (Hlive c Hread) Hchange) as Hperm.
  fold message in Hperm.
  set (files1 := write_file (get_conversation_path format conversation_id)
                   c' files) in *.
  assert (Hnew : flat_map rankings_of (filter is_analyzed [message])
                 = rankings_of message).
  { cbn [filter]; unfold is_analyzed at 1; simpl.
    change (stage2_of message) with stage2.
    destruct (truthy stage2) eqn:E; simpl; [apply app_nil_r |].
    unfold rankings_of; change (stage2_of message) with stage2.
    rewrite (falsy_elements _ E); reflexivity. }
  assert (Hpr : Permutation (processed_rankings files1)
                  (processed_rankings files ++ rankings_of message)%list).
  { unfold processed_rankings.
    rewrite (Permutation_flat_map rankings_of Hperm), flat_map_app, Hnew.
    reflexivity. }
  destruct (get_overall_scores_ok _ _ Hr) as (ms & tc & tr & board & Hscan & _ & ->).
  destruct (get_overall_scores_ok _ _ Hr') as (ms' & tc' & tr' & board' & Hscan' & _ & Hres).
  destruct (scan_run _ _ _ _ Hscan) as (_ & Htc & Htr).
  destruct (scan_run _ _ _ _ Hscan') as (_ & Htc' & Htr').
  split; [| split].
  - rewrite Hres; simpl; rewrite Htc, Htc', (Permutation_length Hperm), length_app.
    assert (Hone : is_analyzed message = truthy stage2) by reflexivity.
    cbn [filter]; rewrite Hone.
    destruct (truthy stage2); cbn [List.length]; lia.
  - rewrite Hres; simpl; rewrite Htr, Htr', (Permutation_length Hpr), length_app.
    unfold rankings_of; rewrite length_map.
    change (stage2_of message) with stage2; lia.
  - intros e' k Hin Hk.
    destruct (entry_facts _ _ _ Hr' Hin) as (k' & Hk' & _ & (Hp & _) & _).
    assert (k' = k) by congruence; subst k'; simpl in Hp; rewrite Hp.
    assert (Hocc : Permutation (occurrences k files1)
                     (occurrences k files
                      ++ filter (has_key k)
                           (flat_map labels_of (rankings_of message)))%list).
    { unfold occurrences, ranked_labels.
      eapply Permutation_trans;
        [apply perm_filter, Permutation_flat_map, Hpr |].
      rewrite flat_map_app, filter_app; reflexivity. }
    rewrite (sum_perm _ _ (Permutation_map occ_points Hocc)), map_app.
    unfold sum; rewrite fold_right_app.
    generalize (map occ_points (occurrences k files)) as l.
    induction l as [| x l IH]; simpl; [reflexivity | rewrite IH; lia].
Qed.

Lemma assistant_message_is_counted_once_witness :
  total_conversations_analyzed
    {| leaderboard := [entry "m1" 5 4 2 2 0 (float_div 6 4) (float_div 5 4);
                       entry "m2" 5 3 2 1 0 (float_div 4 3) (float_div 5 3);
                       entry "m3" 0 1 0 1 0 (float_div 2 1) (float_div 0 1)];
       total_conversations_analyzed := 3;
       total_rankings_processed := 4 |}
  = total_conversations_analyzed mixed_result + 1
  /\ total_rankings_processed
       {| leaderboard := [entry "m1" 5 4 2 2 0 (float_div 6 4) (float_div 5 4);
                          entry "m2" 5 3 2 1 0 (float_div 4 3) (float_div 5 3);
                          entry "m3" 0 1 0 1 0 (float_div 2 1) (float_div 0 1)];
          total_conversations_analyzed := 3;
          total_rankings_processed := 4 |}
     = total_rankings_processed mixed_result + 1.
Proof.
  destruct (assistant_message_is_counted_once format_str (JStr "c3") (JArr [])
              (JArr [judge "judgeC" ["m1"; "m3"]]) (JObj [])
              mixed_store
              (snd (add_assistant_message format_str (JStr "c3") (JArr [])
                      (JArr [judge "judgeC" ["m1"; "m3"]]) (JObj [])
                      mixed_store))
              mixed_result
              {| leaderboard := [entry "m1" 5 4 2 2 0 (float_div 6 4) (float_div 5 4);
                                 entry "m2" 5 3 2 1 0 (float_div 4 3) (float_div 5 3);
                                 entry "m3" 0 1 0 1 0 (float_div 2 1) (float_div 0 1)];
                 total_conversations_analyzed := 3;
                 total_rankings_processed := 4 |}
              stored_under_own_id_c3) as (H1 & H2 & _).
  - intros c Hc; injection Hc as <-; reflexivity.
  - vm_compute; reflexivity.
  - vm_compute; reflexivity.
  - vm_compute; reflexivity.
  - split; [exact H1 | exact H2].
Defined.
